(** * compiletex: a shallow embedding of [compiletex.py]

    The driver runs [pdflatex] (and [bibtex] when the document directory
    holds [.bib] files) as a fixed sequence of steps.  This development
    embeds the program as functions over an explicit world (file system,
    standard output, spawned processes) and states the properties of the
    compilation units, of the pipeline and of the plan assembly over that
    embedding.

    Layout: the Python built-ins the program relies on (module [Py]), the
    world and the effect monad, then one module per class of the source in
    source order, then [main], then the properties. *)

From Stdlib Require Import ZArith String Ascii List Bool DecimalString Lia.
From Stdlib.Strings Require Import Byte.
From stdpp Require Import gmap strings list.
Import ListNotations.

Local Open Scope string_scope.
Local Open Scope Z_scope.

(* ===================================================================== *)
(** * Python built-ins used by the source *)
(* ===================================================================== *)

(** Python [str] values are modelled as [string] (8-bit characters: the
    program only handles paths, option names and tool output), [bytes] values
    as [list byte]. *)

Module Py.

Definition newline : ascii := "010"%char.
Definition tab : ascii := "009"%char.
Definition cr : ascii := "013"%char.
Definition backslash : ascii := "\"%char.
Definition squote : ascii := "'"%char.
Definition dquote : ascii := "034"%char.
Definition slash : ascii := "/"%char.

(** ** Slices *)

(** [s[n:]] *)
Fixpoint drop (n : nat) (s : string) : string :=
  match n, s with
  | O, _ => s
  | S _, EmptyString => EmptyString
  | S k, String _ r => drop k r
  end.

(** [s[:n]] *)
Fixpoint take (n : nat) (s : string) : string :=
  match n, s with
  | O, _ => EmptyString
  | S _, EmptyString => EmptyString
  | S k, String c r => String c (take k r)
  end.

(** [s[:-n]] for a positive literal [n]: the stop index is [len(s) - n],
    clipped at [0]. *)
Definition drop_last (n : nat) (s : string) : string :=
  take (String.length s - n)%nat s.

(** ** [str.rfind], [str.split], [str.strip], [str.join] *)

(** [s.rfind(c) + 1]: one past the last occurrence of [c], and [0] when
    there is none ([rfind] answers [-1]). *)
Fixpoint rfind1 (c : ascii) (s : string) : nat :=
  match s with
  | EmptyString => O
  | String a r =>
      match rfind1 c r with
      | O => if Ascii.eqb a c then 1%nat else O
      | S k => S (S k)
      end
  end.

(** [s.split(sep)] for a one-character separator. *)
Fixpoint split (sep : ascii) (s : string) : list string :=
  match s with
  | EmptyString => [EmptyString]
  | String c r =>
      if Ascii.eqb c sep then EmptyString :: split sep r
      else match split sep r with
           | h :: t => String c h :: t
           | [] => [String c EmptyString]
           end
  end.

(** [c.isspace()] on the characters below 128. *)
Definition isspace (c : ascii) : bool :=
  let n := nat_of_ascii c in
  Nat.eqb n 32 || (Nat.leb 9 n && Nat.leb n 13) || (Nat.leb 28 n && Nat.leb n 31).

Fixpoint lstrip_by (p : ascii -> bool) (s : string) : string :=
  match s with
  | EmptyString => EmptyString
  | String c r => if p c then lstrip_by p r else s
  end.

Fixpoint rstrip_by (p : ascii -> bool) (s : string) : string :=
  match s with
  | EmptyString => EmptyString
  | String c r =>
      match rstrip_by p r with
      | EmptyString => if p c then EmptyString else String c EmptyString
      | r' => String c r'
      end
  end.

(** [s.strip()] *)
Definition strip (s : string) : string := rstrip_by isspace (lstrip_by isspace s).

(** [sep.join(l)] *)
Definition join (sep : string) (l : list string) : string := String.concat sep l.

Definition startswith (c : ascii) (s : string) : bool :=
  match s with
  | String a _ => Ascii.eqb a c
  | EmptyString => false
  end.

Fixpoint endswith (c : ascii) (s : string) : bool :=
  match s with
  | EmptyString => false
  | String a EmptyString => Ascii.eqb a c
  | String _ r => endswith c r
  end.

Fixpoint all_chars (p : ascii -> bool) (s : string) : bool :=
  match s with
  | EmptyString => true
  | String a r => p a && all_chars p r
  end.

(** ** [str(n)] for an [int] *)

Definition str_int (n : Z) : string := NilZero.string_of_int (Z.to_int n).

(** ** [str(b)] for a [bytes] value, and the [replace] applied to it *)

Definition hexdigit (n : N) : ascii :=
  nth (N.to_nat n) (list_ascii_of_string "0123456789abcdef") "0"%char.

(** One byte of [repr(b)], inside the quotes. *)
Definition repr_byte (quote : ascii) (b : byte) : string :=
  let c := ascii_of_byte b in
  let n := Byte.to_N b in
  if Ascii.eqb c quote || Ascii.eqb c backslash then String backslash (String c EmptyString)
  else if Ascii.eqb c tab then String backslash "t"
  else if Ascii.eqb c newline then String backslash "n"
  else if Ascii.eqb c cr then String backslash "r"
  else if (n <? 32)%N || (127 <=? n)%N
       then String backslash (String "x" (String (hexdigit (n / 16)) (String (hexdigit (n mod 16)) EmptyString)))
  else String c EmptyString.

Definition has_byte (c : ascii) (b : list byte) : bool :=
  existsb (fun x => Ascii.eqb (ascii_of_byte x) c) b.

(** [str(b)] is [repr(b)]: [b'...'], or [b"..."] when the bytes hold a
    single quote and no double quote. *)
Definition str_bytes (b : list byte) : string :=
  let quote := if has_byte squote b && negb (has_byte dquote b) then dquote else squote in
  String "b" (String quote (String.concat EmptyString (map (repr_byte quote) b) +:+ String quote EmptyString)).

(** [s.replace(r'\n', '\n')]: every backslash followed by [n] becomes one
    line feed, scanning from the left. *)
Fixpoint replace_backslash_n (s : string) : string :=
  match s with
  | EmptyString => EmptyString
  | String a t =>
      match t with
      | EmptyString => s
      | String b r =>
          if Ascii.eqb a backslash && Ascii.eqb b "n"
          then String newline (replace_backslash_n r)
          else String a (replace_backslash_n t)
      end
  end.

(** ** [str.format] with positional arguments

    The templates of the program use [{}] fields only, and [Logger] also
    formats an arbitrary message with no argument at all.  The model is exact
    on both: a doubled brace is a literal brace, [{}] takes the next
    argument, and every other brace raises ([ValueError] for an unmatched
    brace, [IndexError] or [KeyError] for a field that no argument answers).
    With no argument every field raises, so the three cases are merged into
    one exception; a named or numbered field given arguments is outside the
    model. *)
Fixpoint format (fmt : string) (args : list string) : option string :=
  match fmt with
  | EmptyString => Some EmptyString
  | String c t =>
      if Ascii.eqb c "{" then
        match t with
        | EmptyString => None
        | String d r =>
            if Ascii.eqb d "{" then option_map (String "{") (format r args)
            else if Ascii.eqb d "}" then
              match args with
              | [] => None
              | a :: args' => option_map (append a) (format r args')
              end
            else None
        end
      else if Ascii.eqb c "}" then
        match t with
        | EmptyString => None
        | String d r =>
            if Ascii.eqb d "}" then option_map (String "}") (format r args) else None
        end
      else option_map (String c) (format t args)
  end.

(** ** [os.path] (posixpath) *)

Definition isabs (p : string) : bool := startswith slash p.

Definition basename (p : string) : string := drop (rfind1 slash p) p.

Definition dirname (p : string) : string :=
  let head := take (rfind1 slash p) p in
  if negb (String.eqb head EmptyString) && negb (all_chars (Ascii.eqb slash) head)
  then rstrip_by (Ascii.eqb slash) head
  else head.

(** [os.path.splitext(p)]: the extension starts at the last dot of the last
    component, unless only dots come before it there. *)
Definition splitext (p : string) : string * string :=
  let sep1 := rfind1 slash p in
  let dot1 := rfind1 "." p in
  if Nat.ltb sep1 dot1
     && negb (all_chars (Ascii.eqb ".") (take (dot1 - 1 - sep1) (drop sep1 p)))
  then (take (dot1 - 1) p, drop (dot1 - 1) p)
  else (p, EmptyString).

(** [os.path.join(a, b)] *)
Definition path_join (a b : string) : string :=
  if startswith slash b then b
  else if String.eqb a EmptyString || endswith slash a then a +:+ b
  else a +:+ String slash b.

(** The loop of [normpath] over the components. *)
Fixpoint norm_comps (initial_slashes : nat) (comps new_comps : list string) : list string :=
  match comps with
  | [] => new_comps
  | comp :: rest =>
      if String.eqb comp EmptyString || String.eqb comp "." then
        norm_comps initial_slashes rest new_comps
      else if negb (String.eqb comp "..")
              || (Nat.eqb initial_slashes 0 && match new_comps with [] => true | _ => false end)
              || match last new_comps with
                 | Some l => String.eqb l ".."
                 | None => false
                 end
      then norm_comps initial_slashes rest (new_comps ++ [comp])
      else norm_comps initial_slashes rest (removelast new_comps)
  end.

Definition normpath (path : string) : string :=
  if String.eqb path EmptyString then "." else
  let initial_slashes :=
    if startswith slash path then
      if startswith slash (drop 1 path) && negb (startswith slash (drop 2 path))
      then 2%nat else 1%nat
    else 0%nat in
  let comps := norm_comps initial_slashes (split slash path) [] in
  let p := String.concat "/" comps in
  let p := String.concat EmptyString (repeat "/" initial_slashes) +:+ p in
  if String.eqb p EmptyString then "." else p.

(** [os.path.abspath(path)] in the working directory [cwd]. *)
Definition abspath (cwd path : string) : string :=
  normpath (if isabs path then path else path_join cwd path).

End Py.

(* ===================================================================== *)
(** * The world: file system, standard output, processes *)
(* ===================================================================== *)

Inductive exn :=
| RuntimeError (msg : string)
| TypeError
| FormatError      (* what [str.format] raises: ValueError, IndexError or KeyError *)
| ValueError
| IndexError
| KeyError
| AttributeError
| OSError          (* FileExistsError, FileNotFoundError, PermissionError, ... *)
| TimeoutExpired.

Inductive fentry :=
| File
| Dir
| Link (dest : string).

(** What a spawned process does, as far as [Popen] lets the driver see it. *)
Record process := {
  p_timed_out : bool;
    (* is it still running when [communicate(timeout=...)] gives up *)
  p_exit : Z * list byte * list byte;
    (* return code, stdout and stderr when it ends in time *)
  p_poll : option Z;
    (* [poll()] right after [terminate()]: [None] while it is still running *)
  p_drain : bool -> option (Z * list byte * list byte)
    (* the last [communicate()], given whether [kill()] was sent; [None]
       when the process never exits, so that the call never returns *)
}.

(** The calls that leave the program, in the order they are made. *)
Inductive event :=
| Write (s : string)                                  (* sys.stdout.write *)
| Spawn (command : list string) (cwd : option string) (* Popen *)
| Communicate (timeout : option Z)
| Terminate
| Poll
| Kill
| Mkdir (path : string)                               (* os.mkdir *)
| Symlink (src dst : string).                         (* os.symlink *)

(** The world.  The file system is a flat map from paths to entries; what
    the external tools write into it is not tracked. *)
Record world := {
  w_cwd : string;                      (* os.getcwd() *)
  w_rc : option (list string);         (* the lines of ./compiletexrc, when it can be read *)
  w_glob : string -> list string;      (* glob.glob *)
  w_popen : nat -> list string -> option string -> option process;
    (* the n-th Popen of the run: the process it starts, if it can start one *)
  w_denied : string -> bool;           (* paths the system refuses to create *)
  w_fs : gmap string fentry;
  w_trace : list event
}.

Definition set_trace (t : list event) (w : world) : world :=
  {| w_cwd := w_cwd w; w_rc := w_rc w; w_glob := w_glob w; w_popen := w_popen w;
     w_denied := w_denied w; w_fs := w_fs w; w_trace := t |}.

Definition set_fs (fs : gmap string fentry) (w : world) : world :=
  {| w_cwd := w_cwd w; w_rc := w_rc w; w_glob := w_glob w; w_popen := w_popen w;
     w_denied := w_denied w; w_fs := fs; w_trace := w_trace w |}.

Definition is_spawn (e : event) : bool :=
  match e with Spawn _ _ => true | _ => false end.

Definition spawned (w : world) : nat := length (List.filter is_spawn (w_trace w)).

(** ** The effect monad: state, exceptions, and calls that never return *)

Inductive result (A : Type) :=
| Return (a : A)
| Raise (e : exn)
| Blocked.
Arguments Return {A} a.
Arguments Raise {A} e.
Arguments Blocked {A}.

Definition M (A : Type) : Type := world -> result A * world.

Definition ret {A} (a : A) : M A := fun w => (Return a, w).

Definition raise {A} (e : exn) : M A := fun w => (Raise e, w).

Definition bind {A B} (m : M A) (k : A -> M B) : M B :=
  fun w =>
    match m w with
    | (Return a, w') => k a w'
    | (Raise e, w') => (Raise e, w')
    | (Blocked, w') => (Blocked, w')
    end.

Notation "x <- m ;; k" := (bind m (fun x => k))
  (at level 100, m at next level, right associativity).
Notation "m ;; k" := (bind m (fun _ => k))
  (at level 100, right associativity).

(** [try: m except exc: h] for the exceptions [handler] answers. *)
Definition try_except {A} (m : M A) (handler : exn -> option (M A)) : M A :=
  fun w =>
    match m w with
    | (Raise e, w') =>
        match handler e with
        | Some h => h w'
        | None => (Raise e, w')
        end
    | r => r
    end.

(** [for x in l: body(x)] *)
Fixpoint for_each {A} (l : list A) (body : A -> M unit) : M unit :=
  match l with
  | [] => ret tt
  | x :: l' => body x ;; for_each l' body
  end.

Definition emit (e : event) : M unit :=
  fun w => (Return tt, set_trace (w_trace w ++ [e])%list w).

Definition get {A} (f : world -> A) : M A := fun w => (Return (f w), w).

(** [template.format] applied to the positional arguments [args] *)
Definition fmt (template : string) (args : list string) : M string :=
  match Py.format template args with
  | Some s => ret s
  | None => raise FormatError
  end.

(** ** The operating system *)

(** [os.path.exists]: follows symbolic links (the kernel gives up after 40),
    so a dangling link does not exist. *)
Fixpoint resolves (fuel : nat) (fs : gmap string fentry) (p : string) : bool :=
  match fs !! p with
  | None => false
  | Some (Link d) =>
      match fuel with
      | O => false
      | S k => resolves k fs (if Py.isabs d then d else Py.path_join (Py.dirname p) d)
      end
  | Some _ => true
  end.

Definition os_path_exists (p : string) : M bool :=
  get (fun w => resolves 40 (w_fs w) p).

Definition create (p : string) (e : fentry) : M unit :=
  fun w =>
    if w_denied w p || bool_decide (is_Some (w_fs w !! p))
    then (Raise OSError, w)
    else (Return tt, set_fs (<[p := e]> (w_fs w)) w).

Definition os_mkdir (p : string) : M unit := emit (Mkdir p) ;; create p Dir.

Definition os_symlink (src dst : string) : M unit := emit (Symlink src dst) ;; create dst (Link src).

Definition os_path_abspath (path : option string) : M string :=
  match path with
  | None => raise TypeError
  | Some p => cwd <- get w_cwd ;; ret (Py.abspath cwd p)
  end.

Definition glob_glob (pattern : string) : M (list string) :=
  get (fun w => w_glob w pattern).

(** ** [subprocess.Popen] *)

Definition Popen (command : list string) (cwd : option string) : M process :=
  n <- get spawned ;;
  emit (Spawn command cwd) ;;
  o <- get (fun w => w_popen w n command cwd) ;;
  match o with
  | Some p => ret p
  | None => raise OSError
  end.

Definition communicate_timeout (p : process) (timeout : Z) : M (Z * list byte * list byte) :=
  emit (Communicate (Some timeout)) ;;
  if p_timed_out p then raise TimeoutExpired else ret (p_exit p).

Definition terminate : M unit := emit Terminate.

Definition poll (p : process) : M (option Z) := emit Poll ;; ret (p_poll p).

Definition kill : M unit := emit Kill.

Definition communicate (p : process) (killed : bool) : M (Z * list byte * list byte) :=
  emit (Communicate None) ;;
  match p_drain p killed with
  | Some r => ret r
  | None => fun w => (Blocked, w)
  end.

(** Truth value of what [poll()] answers: [None] and [0] are false. *)
Definition truthy (o : option Z) : bool :=
  match o with
  | None => false
  | Some c => negb (c =? 0)
  end.

(* ===================================================================== *)
(** * The classes of the source *)
(* ===================================================================== *)

(** The instances the program creates by class name
    ([getattr(__import__('__main__'), name)()]). *)
Inductive adapter := PdfLatexCompilerObj.

Inductive object :=
| AdapterObj (a : adapter)
| LoggerObj                 (* Logger(), writing to sys.stdout *)
| NullLoggerObj
| CompilationProcessObj.

Module Logger.
Definition __call__ (template : string) (args : list string) : M unit :=
  s <- fmt (template +:+ String Py.newline EmptyString) args ;;
  emit (Write s).
End Logger.

Module NullLogger.
Definition __call__ (template : string) (args : list string) : M unit := ret tt.
End NullLogger.

(** [log(template, *args)] on whatever object the field holds: an object
    that is not a logger is not callable. *)
Definition call_log (log : object) (template : string) (args : list string) : M unit :=
  match log with
  | LoggerObj => Logger.__call__ template args
  | NullLoggerObj => NullLogger.__call__ template args
  | AdapterObj _ | CompilationProcessObj => raise TypeError
  end.

Definition nullfn : M unit := ret tt.

Module CompilationUnit.

Record t := {
  command : list string;
  timeout : Z;
  cwd : option string;
  precall : M unit;
  postcall : M unit;
  ok : list Z;             (* return_codes["ok"] *)
  warn : list Z;           (* return_codes["warn"] *)
  log : object
}.

(** [precall] and [postcall] are [None] when the argument is not callable;
    [return_codes] is the dictionary as passed, completed with an empty
    list for a missing key. *)
Definition __init__ (command : string) (filename : string) (args : list string)
    (timeout : Z) (cwd : option string) (precall postcall : option (M unit))
    (logger : object) (return_codes : gmap string (list Z)) : t :=
  {| command := ([command] ++ args ++ [filename])%list;
     timeout := timeout;
     cwd := cwd;
     precall := match precall with Some f => f | None => nullfn end;
     postcall := match postcall with Some f => f | None => nullfn end;
     ok := default [] (return_codes !! "ok");
     warn := default [] (return_codes !! "warn");
     log := logger |}.

(** The default of the [return_codes] argument. *)
Definition default_return_codes : gmap string (list Z) :=
  <["ok" := [0]]> (<["warn" := []]> ∅).

Definition _deal_timeout (self : t) (p : process) : M (Z * list byte * list byte) :=
  call_log (log self) "Timeout expired" [] ;;
  terminate ;;
  status <- poll p ;;
  killed <- (if truthy status
             then call_log (log self) "Process will not terminate, we kill it" [] ;;
                  kill ;;
                  ret true
             else ret false) ;;
  communicate p killed.

Definition message (self : t) (returncode : Z) (out err : list byte) : M string :=
  fmt "Process '{}' exited with status '{}', stdout:'{}', stderr: '{}'"
      [Py.join " " (command self);
       Py.str_int returncode;
       Py.replace_backslash_n (Py.str_bytes out);
       Py.replace_backslash_n (Py.str_bytes err)].

Definition _deal_return_code (self : t) (returncode : Z) (out err : list byte) : M unit :=
  msg <- message self returncode out err ;;
  if negb (bool_decide (returncode ∈ ok self)) && negb (bool_decide (returncode ∈ warn self))
  then raise (RuntimeError msg)
  else if bool_decide (returncode ∈ warn self)
       then call_log (log self) msg []
       else ret tt.

Definition _run_process (self : t) : M (list byte * list byte) :=
  p <- Popen (command self) (cwd self) ;;
  r <- try_except (communicate_timeout p (timeout self))
                  (fun e => match e with
                            | TimeoutExpired => Some (_deal_timeout self p)
                            | _ => None
                            end) ;;
  let '(returncode, out, err) := r in
  _deal_return_code self returncode out err ;;
  ret (out, err).

Definition __call__ (self : t) : M (list byte * list byte) :=
  precall self ;;
  r <- _run_process self ;;
  postcall self ;;
  ret r.

End CompilationUnit.

(** The values handed to [CompilationProcess.add]: a compilation unit, a
    plain function, or something that cannot be called. *)
Inductive value :=
| UnitObj (u : CompilationUnit.t)
| FunctionObj (f : M unit)
| NotCallable.

Definition callable (v : value) : bool :=
  match v with
  | UnitObj _ | FunctionObj _ => true
  | NotCallable => false
  end.

(** [v()], the result dropped. *)
Definition call (v : value) : M unit :=
  match v with
  | UnitObj u => CompilationUnit.__call__ u ;; ret tt
  | FunctionObj f => f
  | NotCallable => raise TypeError
  end.

Module CompilationProcess.

Record t := { elements : list value }.

Definition __init__ : t := {| elements := [] |}.

Definition add (self : t) (element : value) : M t :=
  if negb (callable element) then raise TypeError
  else ret {| elements := (elements self ++ [element])%list |}.

Definition compile (self : t) : M unit :=
  for_each (elements self) call.

End CompilationProcess.

(** The option dictionary of [main]: its keys are fixed, only [maintex] can
    hold [None], and [builddir] may be missing when a caller builds the
    dictionary itself. *)
Record texoptions := {
  opt_latex : string;
  opt_bibtex : string;
  opt_maintex : option string;
  opt_logger : string;
  opt_builddir : option string
}.

Module PdfLatexCompiler.

Definition command : string := "pdflatex".

Definition _alternate_builddir_options (builddir : string) : M (list string) :=
  a <- fmt "-aux-directory={}" [builddir] ;;
  o <- fmt "-output-directory={}" [builddir] ;;
  ret [a; o].

Definition arguments (options : texoptions) : M (list string) :=
  match opt_builddir options with
  | Some builddir =>
      b <- os_path_abspath (Some builddir) ;;
      more <- _alternate_builddir_options b ;;
      ret ([] ++ more)%list
  | None => ret []
  end.

End PdfLatexCompiler.

(** [getattr(__import__('__main__'), name)()]: the classes of the module
    that can be built without argument give an instance; [Project()] fails on
    its empty dictionary, the other names bound by the module cannot be
    called this way, and any other name is not an attribute of the module
    (the attributes that every module carries are left out). *)
Definition instantiate (name : string) : M object :=
  if String.eqb name "PdfLatexCompiler" then ret (AdapterObj PdfLatexCompilerObj)
  else if String.eqb name "Logger" then ret LoggerObj
  else if String.eqb name "NullLogger" then ret NullLoggerObj
  else if String.eqb name "CompilationProcess" then ret CompilationProcessObj
  else if String.eqb name "Project" then raise KeyError
  else if bool_decide (name ∈ ["CompilationUnit"; "main"; "Popen"; "PIPE"; "TimeoutExpired";
                               "os"; "sys"; "glob"])
       then raise TypeError
  else raise AttributeError.

(** [for x in l: acc = step(acc, x)], for a loop that rebinds one variable. *)
Fixpoint fold_m {A B} (step : B -> A -> M B) (l : list A) (acc : B) : M B :=
  match l with
  | [] => ret acc
  | x :: l' => acc' <- step acc x ;; fold_m step l' acc'
  end.

Definition adapter_command (a : adapter) : string :=
  match a with PdfLatexCompilerObj => PdfLatexCompiler.command end.

Definition adapter_arguments (a : adapter) (options : texoptions) : M (list string) :=
  match a with PdfLatexCompilerObj => PdfLatexCompiler.arguments options end.

Module Project.

Record t := {
  latex : adapter;
  bibtex : string;
  filepath : string;
  builddir : string;
  texargs : list string;
  log : object
}.

Definition __init__ (texoptions : texoptions) : M t :=
  latex <- instantiate (opt_latex texoptions) ;;
  let bibtex := opt_bibtex texoptions in
  filepath <- os_path_abspath (opt_maintex texoptions) ;;
  builddir <- match opt_builddir texoptions with
              | Some b => os_path_abspath (Some b)
              | None => ret (Py.dirname filepath)
              end ;;
  a <- match latex with
       | AdapterObj a => ret a
       | _ => raise AttributeError      (* no [arguments] attribute *)
       end ;;
  texargs <- adapter_arguments a texoptions ;;
  log <- instantiate (opt_logger texoptions) ;;
  ret {| latex := a; bibtex := bibtex; filepath := filepath; builddir := builddir;
         texargs := texargs; log := log |}.

Definition path (self : t) : string := Py.dirname (filepath self).

Definition main_texfile (self : t) : string := Py.basename (filepath self).

Definition bibfiles (self : t) : M (list string) :=
  pattern <- fmt "{}/*.bib" [path self] ;;
  glob_glob pattern.

Definition has_bibtex (self : t) : M bool :=
  l <- bibfiles self ;;
  ret (match l with [] => false | _ => true end).

Definition reference_auxiliary_filename (self : t) : string :=
  Py.drop_last 3 (main_texfile self) +:+ "aux".

Definition main_file_log (self : t) : M unit :=
  call_log (log self) "compiling tex file '{}'" [filepath self].

Definition main_file_compilation (self : t) : CompilationUnit.t :=
  CompilationUnit.__init__ (adapter_command (latex self)) (filepath self) (texargs self)
    5 (Some (path self)) (Some (main_file_log self)) None
    (log self) CompilationUnit.default_return_codes.

Definition create_bibfile_symlinks (self : t) : M unit :=
  if negb (String.eqb (builddir self) EmptyString)
     && negb (String.eqb (builddir self) (path self))
  then
    files <- bibfiles self ;;
    for_each files (fun bibfile =>
      let target := Py.path_join (builddir self) (Py.basename bibfile) in
      present <- os_path_exists target ;;
      if negb present
      then call_log (log self) "creating symlink from '{}' to '{}'" [bibfile; target] ;;
           os_symlink bibfile target
      else ret tt)
  else ret tt.

Definition reference_log (self : t) : M unit :=
  call_log (log self) "compiling auxiliary reference file '{}'"
           [Py.path_join (builddir self) (reference_auxiliary_filename self)].

Definition bibliography_unit (self : t) : CompilationUnit.t :=
  CompilationUnit.__init__ (bibtex self) (reference_auxiliary_filename self) []
    5 (Some (builddir self)) (Some (reference_log self)) None
    (log self) (<["ok" := [0]]> (<["warn" := [2]]> ∅)).

Definition reference_compilation_units (self : t) : list value :=
  [FunctionObj (create_bibfile_symlinks self); UnitObj (bibliography_unit self)].

Definition create_build_dir (self : t) : M unit :=
  present <- os_path_exists (builddir self) ;;
  if negb present
  then call_log (log self) "creating build directory '{}'" [builddir self] ;;
       os_mkdir (builddir self)
  else ret tt.

Definition _generate_compilation (self : t) : M CompilationProcess.t :=
  let compilation := CompilationProcess.__init__ in
  compilation <- (if negb (String.eqb (builddir self) EmptyString)
                  then CompilationProcess.add compilation (FunctionObj (create_build_dir self))
                  else ret compilation) ;;
  compilation <- CompilationProcess.add compilation (UnitObj (main_file_compilation self)) ;;
  bib <- has_bibtex self ;;
  if bib then
    compilation <- fold_m CompilationProcess.add (reference_compilation_units self) compilation ;;
    compilation <- CompilationProcess.add compilation (UnitObj (main_file_compilation self)) ;;
    compilation <- CompilationProcess.add compilation (UnitObj (main_file_compilation self)) ;;
    ret compilation
  else ret compilation.

Definition compile (self : t) : M unit :=
  compilation <- _generate_compilation self ;;
  CompilationProcess.compile compilation.

End Project.

(* ===================================================================== *)
(** * [main] *)
(* ===================================================================== *)

Definition configs : texoptions :=
  {| opt_latex := "PdfLatexCompiler";
     opt_bibtex := "bibtex";
     opt_maintex := None;
     opt_logger := "Logger";
     opt_builddir := Some "texbuild" |}.

Definition config_keys : list string := ["latex"; "bibtex"; "maintex"; "logger"; "builddir"].

(** [configs[key] = val] for a [key] of the dictionary. *)
Definition set_config (key val : string) (c : texoptions) : texoptions :=
  if String.eqb key "latex" then
    {| opt_latex := val; opt_bibtex := opt_bibtex c; opt_maintex := opt_maintex c;
       opt_logger := opt_logger c; opt_builddir := opt_builddir c |}
  else if String.eqb key "bibtex" then
    {| opt_latex := opt_latex c; opt_bibtex := val; opt_maintex := opt_maintex c;
       opt_logger := opt_logger c; opt_builddir := opt_builddir c |}
  else if String.eqb key "maintex" then
    {| opt_latex := opt_latex c; opt_bibtex := opt_bibtex c; opt_maintex := Some val;
       opt_logger := opt_logger c; opt_builddir := opt_builddir c |}
  else if String.eqb key "logger" then
    {| opt_latex := opt_latex c; opt_bibtex := opt_bibtex c; opt_maintex := opt_maintex c;
       opt_logger := val; opt_builddir := opt_builddir c |}
  else if String.eqb key "builddir" then
    {| opt_latex := opt_latex c; opt_bibtex := opt_bibtex c; opt_maintex := opt_maintex c;
       opt_logger := opt_logger c; opt_builddir := Some val |}
  else c.

(** The filter of [main]: [line.split('=')[0].strip() in configs.keys()]. *)
Definition recognised (line : string) : bool :=
  match Py.split "=" line with
  | k :: _ => bool_decide (Py.strip k ∈ config_keys)
  | [] => false
  end.

(** One turn of the loop over the kept lines; the unpacking [key, val = ...]
    raises unless the line holds exactly one [=]. *)
Definition read_line (c : texoptions) (line : string) : M texoptions :=
  match Py.split "=" line with
  | [key; val] => ret (set_config (Py.strip key) (Py.strip val) c)
  | _ => raise ValueError
  end.

(** The body of the [with open("compiletexrc", "r")] block. *)
Definition read_compiletexrc (c : texoptions) : M texoptions :=
  rc <- get w_rc ;;
  match rc with
  | None => raise OSError
  | Some lines => fold_m read_line (List.filter recognised lines) c
  end.

Definition main (argc : Z) (argv : list string) : M unit :=
  c <- (if argc <? 2
        then try_except (read_compiletexrc configs)
                        (fun _ => Some (raise (RuntimeError "no tex file provided")))
        else match argv !! 1%nat with
             | Some a =>
                 ret {| opt_latex := opt_latex configs; opt_bibtex := opt_bibtex configs;
                        opt_maintex := Some a; opt_logger := opt_logger configs;
                        opt_builddir := opt_builddir configs |}
             | None => raise IndexError
             end) ;;
  p <- Project.__init__ c ;;
  Project.compile p.

(* ===================================================================== *)
(** * Definitions used by the statements *)
(* ===================================================================== *)

(** The text [_deal_return_code] builds: the full command, the return code,
    and both outputs. *)
Definition message_text (u : CompilationUnit.t) (returncode : Z) (out err : list byte) : string :=
  "Process '" +:+ Py.join " " (CompilationUnit.command u)
  +:+ "' exited with status '" +:+ Py.str_int returncode
  +:+ "', stdout:'" +:+ Py.replace_backslash_n (Py.str_bytes out)
  +:+ "', stderr: '" +:+ Py.replace_backslash_n (Py.str_bytes err) +:+ "'".

(** The calls made on the process object, among the events of a trace. *)
Definition is_signal (e : event) : bool :=
  match e with
  | Communicate _ | Terminate | Poll | Kill => true
  | _ => false
  end.

Definition signals (t : list event) : list event := List.filter is_signal t.


(** The compilation units among the elements of a pipeline, in order. *)
Fixpoint units_of (vs : list value) : list CompilationUnit.t :=
  match vs with
  | [] => []
  | UnitObj u :: vs' => u :: units_of vs'
  | _ :: vs' => units_of vs'
  end.

(** A string without any brace. *)
Definition brace_free (s : string) : bool :=
  Py.all_chars (fun c => negb (Ascii.eqb c "{") && negb (Ascii.eqb c "}")) s.

(** The auxiliary file name in the words of the specification: the
    extension of the file name replaced by [ext], the base name kept. *)
Definition replace_extension (name ext : string) : string :=
  fst (Py.splitext name) +:+ "." +:+ ext.



(** [m] keeps the relation [R] between the world it starts in and the world
    it leaves, whatever it returns. *)
Definition keeps (R : world -> world -> Prop) {A} (m : M A) : Prop :=
  forall w, R w (snd (m w)).

(** No process was started between [w] and [w']. *)
Definition same_spawns (w w' : world) : Prop :=
  List.filter is_spawn (w_trace w') = List.filter is_spawn (w_trace w).

(** Every entry of the file system of [w] is in that of [w'], unchanged. *)
Definition fs_grows (w w' : world) : Prop := w_fs w ⊆ w_fs w'.



(** A logger object that can be called. *)
Definition is_logger (o : object) : bool :=
  match o with
  | LoggerObj | NullLoggerObj => true
  | _ => false
  end.


(** The elements of the pipeline of a project, given whether bibliography
    files were found. *)
Definition plan_elements (p : Project.t) (bib : bool) : list value :=
  ((if String.eqb (Project.builddir p) EmptyString then []
    else [FunctionObj (Project.create_build_dir p)])
   ++ [UnitObj (Project.main_file_compilation p)]
   ++ (if bib
       then [FunctionObj (Project.create_bibfile_symlinks p);
             UnitObj (Project.bibliography_unit p);
             UnitObj (Project.main_file_compilation p);
             UnitObj (Project.main_file_compilation p)]
       else []))%list.

(** Whether the scan of the document directory finds a bibliography file. *)
Definition finds_bibfiles (p : Project.t) (w : world) : bool :=
  match w_glob w (Project.path p +:+ "/*.bib") with
  | [] => false
  | _ => true
  end.

(** The start of the process of a unit, as an event. *)
Definition spawn_of (u : CompilationUnit.t) : event :=
  Spawn (CompilationUnit.command u) (CompilationUnit.cwd u).

(** The processes started so far. *)
Definition spawns (w : world) : list event := List.filter is_spawn (w_trace w).

(** An element of a pipeline that starts no process besides the one of the
    unit: a function that starts none, or a unit whose hooks start none. *)
Definition starts_own_process_only (v : value) : Prop :=
  match v with
  | UnitObj u => keeps same_spawns (CompilationUnit.precall u)
                 /\ keeps same_spawns (CompilationUnit.postcall u)
  | FunctionObj f => keeps same_spawns f
  | NotCallable => True
  end.


(** Sample processes, units and worlds for the closed statements. *)
Module Scenario.

Definition world0 : world :=
  {| w_cwd := "/home/u/doc"; w_rc := None; w_glob := fun _ => [];
     w_popen := fun _ _ _ => None; w_denied := fun _ => false;
     w_fs := ∅; w_trace := [] |}.

(** A unit whose policy lists the code [0] twice, as ok and as warn. *)
Definition overlapping : CompilationUnit.t :=
  CompilationUnit.__init__ "bibtex" "paper.aux" [] 5 None None None LoggerObj
    (<["ok" := [0]]> (<["warn" := [0]]> ∅)).

(** A unit with the default policy and the [Logger] of [main]. *)
Definition latex_unit : CompilationUnit.t :=
  CompilationUnit.__init__ "pdflatex" "/home/u/doc/paper.tex" [] 5 (Some "/home/u/doc")
    None None LoggerObj CompilationUnit.default_return_codes.

(** A process that outlives the timeout and ignores the terminate signal:
    it is still running when polled, and only a kill would end it. *)
Definition stubborn : process :=
  {| p_timed_out := true; p_exit := (0, [], []); p_poll := None;
     p_drain := fun killed => if killed then Some (-9, [], []) else None |}.

(** A process that outlives the timeout and dies of the terminate signal
    at once: it has exited, with status -15, by the time it is polled. *)
Definition obedient : process :=
  {| p_timed_out := true; p_exit := (0, [], []); p_poll := Some (-15);
     p_drain := fun _ => Some (-15, [], []) |}.

(** Three steps: the second one fails. *)
Definition three_steps : list value :=
  [FunctionObj (emit (Write "first")); FunctionObj (raise ValueError);
   FunctionObj (emit (Write "third"))].

(** A process that ends in time with return code 1. *)
Definition exit1 : process :=
  {| p_timed_out := false; p_exit := (1, [], []); p_poll := None;
     p_drain := fun _ => Some (1, [], []) |}.

Definition world_exit1 : world :=
  {| w_cwd := "/home/u/doc"; w_rc := None; w_glob := fun _ => [];
     w_popen := fun _ _ _ => Some exit1; w_denied := fun _ => false;
     w_fs := ∅; w_trace := [] |}.

(** A unit with hooks that leave a mark on standard output. *)
Definition failing_unit : CompilationUnit.t :=
  CompilationUnit.__init__ "pdflatex" "/home/u/doc/paper.tex" [] 5 (Some "/home/u/doc")
    (Some (emit (Write "before"))) (Some (emit (Write "after")))
    NullLoggerObj CompilationUnit.default_return_codes.

(** A unit whose pre-hook raises. *)
Definition unit_failing_precall : CompilationUnit.t :=
  CompilationUnit.__init__ "pdflatex" "/home/u/doc/paper.tex" [] 5 (Some "/home/u/doc")
    (Some (raise ValueError)) (Some (emit (Write "after")))
    NullLoggerObj CompilationUnit.default_return_codes.

(** The project of [paper.tex] in [/home/u/doc], built in [texbuild]. *)
Definition paper : Project.t :=
  {| Project.latex := PdfLatexCompilerObj;
     Project.bibtex := "bibtex";
     Project.filepath := "/home/u/doc/paper.tex";
     Project.builddir := "/home/u/doc/texbuild";
     Project.texargs := ["-aux-directory=/home/u/doc/texbuild";
                         "-output-directory=/home/u/doc/texbuild"];
     Project.log := LoggerObj |}.

(** Every process ends in time with return code 0 and no output. *)
Definition quiet : process :=
  {| p_timed_out := false; p_exit := (0, [], []); p_poll := None;
     p_drain := fun _ => Some (0, [], []) |}.

(** A document directory without bibliography files. *)
Definition world_quiet : world :=
  {| w_cwd := "/home/u/doc"; w_rc := None; w_glob := fun _ => [];
     w_popen := fun _ _ _ => Some quiet; w_denied := fun _ => false;
     w_fs := ∅; w_trace := [] |}.

(** A document directory holding one bibliography file. *)
Definition world_bib : world :=
  {| w_cwd := "/home/u/doc"; w_rc := None;
     w_glob := fun pattern => if String.eqb pattern "/home/u/doc/*.bib"
                              then ["/home/u/doc/refs.bib"] else [];
     w_popen := fun _ _ _ => Some quiet; w_denied := fun _ => false;
     w_fs := ∅; w_trace := [] |}.

(** The same project for a document named [paper.latex]. *)
Definition paper_latex : Project.t :=
  {| Project.latex := PdfLatexCompilerObj;
     Project.bibtex := "bibtex";
     Project.filepath := "/home/u/doc/paper.latex";
     Project.builddir := "/home/u/doc/texbuild";
     Project.texargs := ["-aux-directory=/home/u/doc/texbuild";
                         "-output-directory=/home/u/doc/texbuild"];
     Project.log := LoggerObj |}.

(** The options of [main] for a document given on the command line. *)
Definition options (maintex : string) : texoptions :=
  {| opt_latex := "PdfLatexCompiler"; opt_bibtex := "bibtex"; opt_maintex := Some maintex;
     opt_logger := "Logger"; opt_builddir := Some "texbuild" |}.

(** The working directory holds a settings file with the given lines. *)
Definition with_rc (lines : list string) : world :=
  {| w_cwd := "/home/u/doc"; w_rc := Some lines; w_glob := fun _ => [];
     w_popen := fun _ _ _ => Some quiet; w_denied := fun _ => false;
     w_fs := ∅; w_trace := [] |}.

(** A settings file that names a build directory and no main document. *)
Definition world_rc_builddir : world :=
  with_rc ["builddir = out" +:+ String Py.newline EmptyString].

(** What [bibtex] prints on a malformed entry, before it exits with 2. *)
Definition bibtex_complaint : list byte :=
  list_byte_of_string "I was expecting a `,' or a `}'---line 3 of file refs.bib".

Definition bibtex_exit (rc : Z) (out : list byte) : process :=
  {| p_timed_out := false; p_exit := (rc, out, []); p_poll := None;
     p_drain := fun _ => Some (rc, out, []) |}.

(** [world_bib] where the second process of the run, [bibtex], ends with
    the given return code and output. *)
Definition world_bibtex (rc : Z) (out : list byte) : world :=
  {| w_cwd := "/home/u/doc"; w_rc := None;
     w_glob := fun pattern => if String.eqb pattern "/home/u/doc/*.bib"
                              then ["/home/u/doc/refs.bib"] else [];
     w_popen := fun n _ _ => if Nat.eqb n 1 then Some (bibtex_exit rc out) else Some quiet;
     w_denied := fun _ => false;
     w_fs := ∅; w_trace := [] |}.

Definition pdflatex_spawn : event :=
  Spawn ["pdflatex"; "-aux-directory=/home/u/doc/texbuild";
         "-output-directory=/home/u/doc/texbuild"; "/home/u/doc/paper.tex"]
        (Some "/home/u/doc").

Definition bibtex_spawn : event :=
  Spawn ["bibtex"; "paper.aux"] (Some "/home/u/doc/texbuild").



(** [world_bib] where the bibliography file is a link to nothing. *)
Definition world_bib_dangling : world :=
  set_fs (<["/home/u/doc/refs.bib" := Link "/gone"]> ∅) world_bib.

(** A process that outlives the timeout, is still running when polled, and
    then ends with return code 0 and some output. *)
Definition slow : process :=
  {| p_timed_out := true; p_exit := (0, [], []); p_poll := None;
     p_drain := fun _ => Some (0, list_byte_of_string "done", []) |}.

Definition world_slow : world :=
  {| w_cwd := "/home/u/doc"; w_rc := None; w_glob := fun _ => [];
     w_popen := fun _ _ _ => Some slow; w_denied := fun _ => false;
     w_fs := ∅; w_trace := [] |}.

(** A project whose main document is named [a.x]. *)
Definition short_name : Project.t :=
  {| Project.latex := PdfLatexCompilerObj;
     Project.bibtex := "bibtex";
     Project.filepath := "/home/u/doc/a.x";
     Project.builddir := "/home/u/doc";
     Project.texargs := [];
     Project.log := LoggerObj |}.

(** The options of [main] for [paper.tex] with another logger option. *)
Definition options_with_logger (logger : string) : texoptions :=
  {| opt_latex := "PdfLatexCompiler"; opt_bibtex := "bibtex"; opt_maintex := Some "paper.tex";
     opt_logger := logger; opt_builddir := Some "texbuild" |}.

(** The project [__init__] builds from them when the option names the
    pipeline class. *)
Definition paper_without_logger : Project.t :=
  {| Project.latex := PdfLatexCompilerObj;
     Project.bibtex := "bibtex";
     Project.filepath := "/home/u/doc/paper.tex";
     Project.builddir := "/home/u/doc/texbuild";
     Project.texargs := ["-aux-directory=/home/u/doc/texbuild";
                         "-output-directory=/home/u/doc/texbuild"];
     Project.log := CompilationProcessObj |}.

(** The project [__init__] builds in [/home/u/doc] for [thesis.ltx]. *)
Definition thesis : Project.t :=
  {| Project.latex := PdfLatexCompilerObj;
     Project.bibtex := "bibtex";
     Project.filepath := "/home/u/doc/thesis.ltx";
     Project.builddir := "/home/u/doc/texbuild";
     Project.texargs := ["-aux-directory=/home/u/doc/texbuild";
                         "-output-directory=/home/u/doc/texbuild"];
     Project.log := LoggerObj |}.

End Scenario.

(* ===================================================================== *)
(** * Properties *)
(* ===================================================================== *)

(** ** The monad *)

Lemma bind_return {A B} (m : M A) (k : A -> M B) w a w' :
  m w = (Return a, w') -> bind m k w = k a w'.
Proof. intros H. unfold bind. now rewrite H. Qed.

Lemma bind_raise {A B} (m : M A) (k : A -> M B) w e w' :
  m w = (Raise e, w') -> bind m k w = (Raise e, w').
Proof. intros H. unfold bind. now rewrite H. Qed.

Lemma bind_blocked {A B} (m : M A) (k : A -> M B) w w' :
  m w = (Blocked, w') -> bind m k w = (Blocked, w').
Proof. intros H. unfold bind. now rewrite H. Qed.

Lemma signals_app t1 t2 : signals (t1 ++ t2) = (signals t1 ++ signals t2)%list.
Proof. unfold signals. apply List.filter_app. Qed.

(** ** Messages and loggers *)

Lemma message_returns u rc out err w :
  CompilationUnit.message u rc out err w = (Return (message_text u rc out err), w).
Proof. reflexivity. Qed.

Lemma format_brace_free s : brace_free s = true -> Py.format s [] = Some s.
Proof.
  induction s as [|c s IH]; simpl; [reflexivity|].
  unfold brace_free in *. simpl. intros H.
  apply andb_prop in H as [Hc Hs]. apply andb_prop in Hc as [H1 H2].
  apply negb_true_iff in H1, H2. rewrite H1, H2, (IH Hs). reflexivity.
Qed.

Lemma call_log_never_runtime_error l template args w msg w' :
  call_log l template args w <> (Raise (RuntimeError msg), w').
Proof.
  destruct l; simpl; unfold Logger.__call__, NullLogger.__call__, fmt, bind, ret, raise, emit;
    try destruct (Py.format _ _); simpl; congruence.
Qed.

(** ** The built-ins on sample values *)

Example format_fields : Py.format "from '{}' to '{}'" ["a"; "b"] = Some "from 'a' to 'b'".
Proof. reflexivity. Qed.
Example format_escaped : Py.format "{{}}" [] = Some "{}".
Proof. reflexivity. Qed.
Example format_lone_brace : Py.format "a `}' b" [] = None.
Proof. reflexivity. Qed.
Example format_missing_arg : Py.format "{}" [] = None.
Proof. reflexivity. Qed.
Example str_bytes_plain : Py.str_bytes (list_byte_of_string "ok") = "b'ok'".
Proof. reflexivity. Qed.
Example str_int_neg : Py.str_int (-15) = "-15".
Proof. reflexivity. Qed.
Example abspath_rel : Py.abspath "/home/u/doc" "paper.tex" = "/home/u/doc/paper.tex".
Proof. reflexivity. Qed.
Example abspath_dots : Py.abspath "/home/u/doc" "../x/./paper.tex" = "/home/u/x/paper.tex".
Proof. reflexivity. Qed.
Example dirname_ex : Py.dirname "/home/u/doc/paper.tex" = "/home/u/doc".
Proof. reflexivity. Qed.
Example basename_ex : Py.basename "/home/u/doc/paper.tex" = "paper.tex".
Proof. reflexivity. Qed.
Example strip_ex : Py.strip (" maintex " +:+ String Py.newline EmptyString) = "maintex".
Proof. reflexivity. Qed.
Example split_ex : Py.split "=" "a = b" = ["a "; " b"].
Proof. reflexivity. Qed.

(** ** Exit-code classification *)

Lemma deal_return_code_unlisted u rc out err w :
  rc ∉ CompilationUnit.ok u -> rc ∉ CompilationUnit.warn u ->
  CompilationUnit._deal_return_code u rc out err w
  = (Raise (RuntimeError (message_text u rc out err)), w).
Proof.
  intros Hok Hwarn. unfold CompilationUnit._deal_return_code.
  rewrite (bind_return _ _ _ _ _ (message_returns u rc out err w)).
  rewrite !bool_decide_eq_false_2 by assumption. reflexivity.
Qed.

Lemma deal_return_code_warn u rc out err w :
  rc ∈ CompilationUnit.warn u ->
  CompilationUnit._deal_return_code u rc out err w
  = call_log (CompilationUnit.log u) (message_text u rc out err) [] w.
Proof.
  intros Hwarn. unfold CompilationUnit._deal_return_code.
  rewrite (bind_return _ _ _ _ _ (message_returns u rc out err w)).
  rewrite (bool_decide_eq_true_2 _ Hwarn). rewrite andb_false_r. reflexivity.
Qed.

Lemma deal_return_code_ok_only u rc out err w :
  rc ∈ CompilationUnit.ok u -> rc ∉ CompilationUnit.warn u ->
  CompilationUnit._deal_return_code u rc out err w = (Return tt, w).
Proof.
  intros Hok Hwarn. unfold CompilationUnit._deal_return_code.
  rewrite (bind_return _ _ _ _ _ (message_returns u rc out err w)).
  rewrite (bool_decide_eq_true_2 _ Hok), (bool_decide_eq_false_2 _ Hwarn). reflexivity.
Qed.

(** C3. [_deal_return_code] raises [RuntimeError] exactly for the return
    codes that are neither in the ok list nor in the warn list, and the error
    then carries the text made of the full command, the return code, stdout
    and stderr; nothing else has happened. *)
Theorem deal_return_code_fails_iff_unlisted (u : CompilationUnit.t) (rc : Z)
    (out err : list byte) (w : world) :
  ((exists msg w', CompilationUnit._deal_return_code u rc out err w
                   = (Raise (RuntimeError msg), w'))
   <-> (rc ∉ CompilationUnit.ok u) /\ (rc ∉ CompilationUnit.warn u))
  /\ (CompilationUnit._deal_return_code u rc out err w
      = (Raise (RuntimeError (message_text u rc out err)), w)
      <-> (rc ∉ CompilationUnit.ok u) /\ (rc ∉ CompilationUnit.warn u)).
Proof.
  assert (Hback : forall msg w',
             CompilationUnit._deal_return_code u rc out err w = (Raise (RuntimeError msg), w') ->
             (rc ∉ CompilationUnit.ok u) /\ (rc ∉ CompilationUnit.warn u)).
  { intros msg w' H.
    destruct (decide (rc ∈ CompilationUnit.warn u)) as [Hwarn|Hwarn].
    - rewrite (deal_return_code_warn _ _ _ _ _ Hwarn) in H.
      now apply call_log_never_runtime_error in H.
    - destruct (decide (rc ∈ CompilationUnit.ok u)) as [Hok|Hok]; [|now split].
      rewrite (deal_return_code_ok_only _ _ _ _ _ Hok Hwarn) in H. discriminate. }
  split; split.
  - intros (msg & w' & H). eapply Hback, H.
  - intros [Hok Hwarn]. eexists _, _. now apply deal_return_code_unlisted.
  - apply Hback.
  - intros [Hok Hwarn]. now apply deal_return_code_unlisted.
Qed.

(** C9 does not hold for every policy: a code listed both as ok and as warn
    succeeds and is logged. *)
Lemma ok_code_logged_when_also_warn :
  ~ (forall (u : CompilationUnit.t) (rc : Z) (out err : list byte) (w : world),
        rc ∈ CompilationUnit.ok u ->
        CompilationUnit._deal_return_code u rc out err w = (Return tt, w)).
Proof.
  intros H.
  specialize (H Scenario.overlapping 0 [] [] Scenario.world0).
  assert (Hin : 0 ∈ CompilationUnit.ok Scenario.overlapping) by (vm_compute; constructor).
  specialize (H Hin). vm_compute in H. discriminate H.
Qed.

Example overlapping_logs :
  CompilationUnit._deal_return_code Scenario.overlapping 0 [] [] Scenario.world0
  = (Return tt,
     set_trace [Write ("Process 'bibtex paper.aux' exited with status '0', stdout:'b''', stderr: 'b'''"
                       +:+ String Py.newline EmptyString)] Scenario.world0).
Proof. reflexivity. Qed.

(** C9, amended. A code in the ok list and not in the warn list succeeds
    and logs nothing; a code in the warn list hands the text made of the full
    command, the return code, stdout and stderr to the logger of the unit,
    once, and the classification succeeds when that call returns: always
    with a [NullLogger], and with a [Logger] that then writes the text as one
    line whenever the text holds no brace. *)
Theorem deal_return_code_ok_and_warn (u : CompilationUnit.t) (rc : Z)
    (out err : list byte) (w : world) :
  (rc ∈ CompilationUnit.ok u -> rc ∉ CompilationUnit.warn u ->
   CompilationUnit._deal_return_code u rc out err w = (Return tt, w))
  /\ (rc ∈ CompilationUnit.warn u ->
      CompilationUnit._deal_return_code u rc out err w
      = call_log (CompilationUnit.log u) (message_text u rc out err) [] w
      /\ (CompilationUnit.log u = NullLoggerObj ->
          CompilationUnit._deal_return_code u rc out err w = (Return tt, w))
      /\ (CompilationUnit.log u = LoggerObj ->
          brace_free (message_text u rc out err) = true ->
          CompilationUnit._deal_return_code u rc out err w
          = (Return tt,
             set_trace (w_trace w ++ [Write (message_text u rc out err
                                             +:+ String Py.newline EmptyString)])%list w))).
Proof.
  split; [apply deal_return_code_ok_only|].
  intros Hwarn. rewrite (deal_return_code_warn _ _ _ _ _ Hwarn).
  split; [reflexivity|]. split; intros Hlog.
  - now rewrite Hlog.
  - intros Hfree. rewrite Hlog. simpl. unfold Logger.__call__, fmt.
    rewrite format_brace_free; [reflexivity|].
    unfold brace_free in *. clear -Hfree.
    induction (message_text u rc out err) as [|c s IH]; simpl in *; [reflexivity|].
    apply andb_prop in Hfree as [-> Hs]. now rewrite IH.
Qed.

Lemma deal_return_code_ok_and_warn_witness :
  CompilationUnit._deal_return_code (Project.bibliography_unit Scenario.paper) 0 [] []
    Scenario.world0
  = (Return tt, Scenario.world0)
  /\ CompilationUnit._deal_return_code (Project.bibliography_unit Scenario.paper) 2 [] []
       Scenario.world0
     = (Return tt,
        set_trace [Write ("Process 'bibtex paper.aux' exited with status '2', stdout:'b''', stderr: 'b'''"
                          +:+ String Py.newline EmptyString)] Scenario.world0).
Proof.
  split.
  - apply (proj1 (deal_return_code_ok_and_warn (Project.bibliography_unit Scenario.paper)
                    0 [] [] Scenario.world0)).
    + vm_compute. apply list_elem_of_here.
    + vm_compute. intros H. inversion H as [|? ? ? H']; subst. inversion H'.
  - apply (proj2 (proj2 (proj2 (deal_return_code_ok_and_warn
                                  (Project.bibliography_unit Scenario.paper)
                                  2 [] [] Scenario.world0)
                               ltac:(vm_compute; apply list_elem_of_here)))).
    + reflexivity.
    + reflexivity.
Defined.

(** ** Timeouts *)

(** X18. What [_deal_timeout] does to the process, for every unit and process: it
    sends terminate, polls, sends kill exactly when the poll answers a
    non-zero status (the process has already exited), and then waits without
    a timeout.  A unit whose logger cannot be called fails on its first log
    call, before any signal. *)
Lemma deal_timeout_signals (u : CompilationUnit.t) (p : process) (w : world) :
  match CompilationUnit.log u with
  | LoggerObj | NullLoggerObj =>
      signals (w_trace (snd (CompilationUnit._deal_timeout u p w)))
      = (signals (w_trace w) ++ [Terminate; Poll]
         ++ (if truthy (p_poll p) then [Kill] else []) ++ [Communicate None])%list
      /\ fst (CompilationUnit._deal_timeout u p w)
         = match p_drain p (truthy (p_poll p)) with
           | Some r => Return r
           | None => Blocked
           end
  | _ => CompilationUnit._deal_timeout u p w = (Raise TypeError, w)
  end.
Proof.
  unfold CompilationUnit._deal_timeout.
  destruct (CompilationUnit.log u); try reflexivity;
    destruct (truthy (p_poll p)) eqn:Hp;
    unfold bind, communicate, call_log, terminate, poll, kill, emit, ret; simpl;
    rewrite Hp; simpl; destruct (p_drain p _); simpl;
    rewrite ?signals_app; simpl; rewrite <- ?app_assoc, ?app_nil_r; simpl; auto.
Qed.

(** C1. On a timeout the code sends the kill the wrong way round: a
    process still running after terminate is never killed (and the wait that
    follows never returns), while a process that has already exited, with
    status -15, is sent the kill, under the log line that announces a process
    that will not terminate.  Terminate does come before any kill. *)
Theorem deal_timeout_kills_only_exited_process :
  CompilationUnit._deal_timeout Scenario.latex_unit Scenario.stubborn Scenario.world0
  = (Blocked,
     set_trace [Write ("Timeout expired" +:+ String Py.newline EmptyString);
                Terminate; Poll; Communicate None] Scenario.world0)
  /\ CompilationUnit._deal_timeout Scenario.latex_unit Scenario.obedient Scenario.world0
     = (Return (-15, [], []),
        set_trace [Write ("Timeout expired" +:+ String Py.newline EmptyString);
                   Terminate; Poll;
                   Write ("Process will not terminate, we kill it" +:+ String Py.newline EmptyString);
                   Kill; Communicate None] Scenario.world0).
Proof. split; reflexivity. Qed.

(** ** The pipeline *)


Lemma add_callable (c : CompilationProcess.t) (v : value) (w : world) :
  callable v = true ->
  CompilationProcess.add c v w
  = (Return {| CompilationProcess.elements := CompilationProcess.elements c ++ [v] |}, w).
Proof. intros H. unfold CompilationProcess.add. now rewrite H. Qed.

Lemma add_not_callable (c : CompilationProcess.t) (v : value) (w : world) :
  callable v = false -> CompilationProcess.add c v w = (Raise TypeError, w).
Proof. intros H. unfold CompilationProcess.add. now rewrite H. Qed.

Lemma fold_add_callable (vs : list value) (c : CompilationProcess.t) (w : world) :
  Forall (fun v => callable v = true) vs ->
  fold_m CompilationProcess.add vs c w
  = (Return {| CompilationProcess.elements := CompilationProcess.elements c ++ vs |}, w).
Proof.
  intros H. revert c. induction H as [|v vs Hv _ IH]; intros c; simpl.
  - rewrite app_nil_r. now destruct c.
  - rewrite (bind_return _ _ _ _ _ (add_callable c v w Hv)), IH. simpl.
    now rewrite <- app_assoc.
Qed.



(** ** One compilation unit *)

Lemma set_trace_set_trace t t' w : set_trace t (set_trace t' w) = set_trace t w.
Proof. reflexivity. Qed.

Lemma popen_starts (command : list string) (cwd : option string) (w : world) (p : process) :
  w_popen w (spawned w) command cwd = Some p ->
  Popen command cwd w = (Return p, set_trace (w_trace w ++ [Spawn command cwd]) w).
Proof. intros H. unfold Popen, bind, get, emit. simpl. now rewrite H. Qed.

(** A unit whose pre-hook returned and whose process ends with a return
    code that is neither ok nor warn raises the [RuntimeError] in the world
    the wait for the process left. *)
Lemma call_raises_on_unlisted_code (u : CompilationUnit.t) (w w0 w2 : world) (p : process)
    (rc : Z) (out err : list byte) :
  CompilationUnit.precall u w = (Return tt, w0) ->
  w_popen w0 (spawned w0) (CompilationUnit.command u) (CompilationUnit.cwd u) = Some p ->
  (let w1 := set_trace (w_trace w0
                        ++ [Spawn (CompilationUnit.command u) (CompilationUnit.cwd u);
                            Communicate (Some (CompilationUnit.timeout u))]) w0 in
   if p_timed_out p then CompilationUnit._deal_timeout u p w1
   else (Return (p_exit p), w1)) = (Return (rc, out, err), w2) ->
  rc ∉ CompilationUnit.ok u -> rc ∉ CompilationUnit.warn u ->
  CompilationUnit.__call__ u w = (Raise (RuntimeError (message_text u rc out err)), w2).
Proof.
  intros Hpre Hpopen Hwait Hok Hwarn.
  unfold CompilationUnit.__call__.
  rewrite (bind_return _ _ _ _ _ Hpre).
  apply bind_raise. unfold CompilationUnit._run_process.
  rewrite (bind_return _ _ _ _ _ (popen_starts _ _ _ _ Hpopen)).
  assert (Hr : try_except (communicate_timeout p (CompilationUnit.timeout u))
                 (fun e => match e with
                           | TimeoutExpired => Some (CompilationUnit._deal_timeout u p)
                           | _ => None
                           end)
                 (set_trace (w_trace w0
                             ++ [Spawn (CompilationUnit.command u) (CompilationUnit.cwd u)]) w0)
               = (Return (rc, out, err), w2)).
  { rewrite <- Hwait. unfold try_except, communicate_timeout, bind, emit, raise, ret. simpl.
    rewrite set_trace_set_trace, <- app_assoc. simpl.
    destruct (p_timed_out p); reflexivity. }
  rewrite (bind_return _ _ _ _ _ Hr).
  apply bind_raise. now apply deal_return_code_unlisted.
Qed.

(** C10. The pre-hook runs first: when it raises, nothing else happens, and
    otherwise the process is spawned in the world the pre-hook left.  When
    the return code of that process is neither ok nor warn, [__call__] ends
    with the [RuntimeError] in the world the wait for the process left: the
    post-hook, whatever it is, has not run. *)
Theorem unit_call_precall_first_no_postcall_on_failure (u : CompilationUnit.t) (w : world) :
  (forall e w0, CompilationUnit.precall u w = (Raise e, w0) ->
                CompilationUnit.__call__ u w = (Raise e, w0))
  /\ (forall w0 p rc out err w2,
         CompilationUnit.precall u w = (Return tt, w0) ->
         w_popen w0 (spawned w0) (CompilationUnit.command u) (CompilationUnit.cwd u) = Some p ->
         (let w1 := set_trace (w_trace w0
                               ++ [Spawn (CompilationUnit.command u) (CompilationUnit.cwd u);
                                   Communicate (Some (CompilationUnit.timeout u))]) w0 in
          if p_timed_out p then CompilationUnit._deal_timeout u p w1
          else (Return (p_exit p), w1)) = (Return (rc, out, err), w2) ->
         rc ∉ CompilationUnit.ok u -> rc ∉ CompilationUnit.warn u ->
         CompilationUnit.__call__ u w
         = (Raise (RuntimeError (message_text u rc out err)), w2)).
Proof.
  split.
  - intros e w0 H. unfold CompilationUnit.__call__. now apply bind_raise.
  - intros w0 p rc out err w2. apply call_raises_on_unlisted_code.
Qed.

Lemma unit_call_precall_first_no_postcall_on_failure_witness :
  CompilationUnit.__call__ Scenario.failing_unit Scenario.world_exit1
  = (Raise (RuntimeError "Process 'pdflatex /home/u/doc/paper.tex' exited with status '1', stdout:'b''', stderr: 'b'''"),
     set_trace [Write "before"; Spawn ["pdflatex"; "/home/u/doc/paper.tex"] (Some "/home/u/doc");
                Communicate (Some 5)] Scenario.world_exit1)
  /\ CompilationUnit.__call__ Scenario.unit_failing_precall Scenario.world_exit1
     = (Raise ValueError, Scenario.world_exit1).
Proof.
  split.
  - apply (proj2 (unit_call_precall_first_no_postcall_on_failure
                    Scenario.failing_unit Scenario.world_exit1)
                 (set_trace [Write "before"] Scenario.world_exit1) Scenario.exit1 1 [] []).
    + reflexivity.
    + reflexivity.
    + reflexivity.
    + vm_compute. intros H. inversion H as [|? ? ? H']; subst. inversion H'.
    + vm_compute. intros H. inversion H.
  - apply (proj1 (unit_call_precall_first_no_postcall_on_failure
                    Scenario.unit_failing_precall Scenario.world_exit1)).
    reflexivity.
Defined.

(** ** Plan assembly *)


Lemma bibliography_unit_is_not_main (p : Project.t) :
  Project.bibliography_unit p <> Project.main_file_compilation p.
Proof.
  intros H. apply (f_equal CompilationUnit.warn) in H. vm_compute in H. discriminate H.
Qed.

(** C4. Without bibliography files the plan is the build-directory step
    (when a build directory is set) followed by one compilation of the main
    file; with bibliography files and a build directory it is: build
    directory, main file, symbolic links, bibliography, main file, main file,
    which holds three main-file units and one bibliography unit.  In
    particular this is the plan when the build directory is separate from the
    directory of the document. *)
Theorem generate_compilation_plan (p : Project.t) (w : world) :
  (Project.has_bibtex p w = (Return false, w) ->
   exists plan,
     Project._generate_compilation p w = (Return plan, w)
     /\ CompilationProcess.elements plan
        = ((if String.eqb (Project.builddir p) EmptyString then []
            else [FunctionObj (Project.create_build_dir p)])
           ++ [UnitObj (Project.main_file_compilation p)])%list
     /\ units_of (CompilationProcess.elements plan) = [Project.main_file_compilation p])
  /\ (Project.has_bibtex p w = (Return true, w) ->
      Project.builddir p <> EmptyString ->
      exists plan,
        Project._generate_compilation p w = (Return plan, w)
        /\ CompilationProcess.elements plan
           = [FunctionObj (Project.create_build_dir p);
              UnitObj (Project.main_file_compilation p);
              FunctionObj (Project.create_bibfile_symlinks p);
              UnitObj (Project.bibliography_unit p);
              UnitObj (Project.main_file_compilation p);
              UnitObj (Project.main_file_compilation p)]
        /\ units_of (CompilationProcess.elements plan)
           = [Project.main_file_compilation p; Project.bibliography_unit p;
              Project.main_file_compilation p; Project.main_file_compilation p]
        /\ Project.bibliography_unit p <> Project.main_file_compilation p).
Proof.
  split.
  - intros Hbib. unfold Project._generate_compilation.
    destruct (String.eqb (Project.builddir p) EmptyString) eqn:Hb; simpl;
      unfold bind at 1; simpl; unfold bind at 1; simpl;
      unfold bind; rewrite Hbib; simpl; eexists; repeat split; reflexivity.
  - intros Hbib Hdir. unfold Project._generate_compilation.
    apply String.eqb_neq in Hdir. rewrite Hdir. simpl.
    unfold bind at 1; simpl; unfold bind at 1; simpl.
    unfold bind at 1; rewrite Hbib; simpl.
    eexists. repeat split. apply bibliography_unit_is_not_main.
Qed.

Lemma generate_compilation_plan_witness :
  (exists plan,
      Project._generate_compilation Scenario.paper Scenario.world0 = (Return plan, Scenario.world0)
      /\ CompilationProcess.elements plan
         = [FunctionObj (Project.create_build_dir Scenario.paper);
            UnitObj (Project.main_file_compilation Scenario.paper)])
  /\ (exists plan,
         Project._generate_compilation Scenario.paper Scenario.world_bib
         = (Return plan, Scenario.world_bib)
         /\ CompilationProcess.elements plan
            = [FunctionObj (Project.create_build_dir Scenario.paper);
               UnitObj (Project.main_file_compilation Scenario.paper);
               FunctionObj (Project.create_bibfile_symlinks Scenario.paper);
               UnitObj (Project.bibliography_unit Scenario.paper);
               UnitObj (Project.main_file_compilation Scenario.paper);
               UnitObj (Project.main_file_compilation Scenario.paper)]).
Proof.
  split.
  - destruct (proj1 (generate_compilation_plan Scenario.paper Scenario.world0))
      as (plan & Hplan & Hel & _).
    + reflexivity.
    + exists plan. split; assumption.
  - destruct (proj2 (generate_compilation_plan Scenario.paper Scenario.world_bib))
      as (plan & Hplan & Hel & _).
    + reflexivity.
    + discriminate.
    + exists plan. split; assumption.
Defined.

(** The two scenarios run to the end when every process returns 0: one
    compilation without bibliography files, and with them three compilations
    around one run of the bibliography processor. *)
Example scenario_a_invocations :
  fst (Project.compile Scenario.paper Scenario.world_quiet) = Return tt
  /\ List.filter is_spawn (w_trace (snd (Project.compile Scenario.paper Scenario.world_quiet)))
     = [Scenario.pdflatex_spawn].
Proof. split; reflexivity. Qed.

Example scenario_b_invocations :
  fst (Project.compile Scenario.paper Scenario.world_bib) = Return tt
  /\ List.filter is_spawn (w_trace (snd (Project.compile Scenario.paper Scenario.world_bib)))
     = [Scenario.pdflatex_spawn; Scenario.bibtex_spawn;
        Scenario.pdflatex_spawn; Scenario.pdflatex_spawn].
Proof. split; reflexivity. Qed.

(** ** Symbolic links *)


Local Arguments resolves : simpl never.








(** A target that is already there is skipped: nothing is written, linked
    or changed. *)
Example symlink_skipped_when_target_exists :
  Project.create_bibfile_symlinks Scenario.paper
    (set_fs (<["/home/u/doc/texbuild/refs.bib" := File]> ∅) Scenario.world_bib)
  = (Return tt, set_fs (<["/home/u/doc/texbuild/refs.bib" := File]> ∅) Scenario.world_bib).
Proof. reflexivity. Qed.

(** A dangling link at the target does not exist for [os.path.exists]: the
    step calls [os.symlink], which fails and leaves the link as it was. *)
Example symlink_fails_on_dangling_link :
  fst (Project.create_bibfile_symlinks Scenario.paper
         (set_fs (<["/home/u/doc/texbuild/refs.bib" := Link "/gone"]> ∅) Scenario.world_bib))
  = Raise OSError
  /\ w_fs (snd (Project.create_bibfile_symlinks Scenario.paper
                  (set_fs (<["/home/u/doc/texbuild/refs.bib" := Link "/gone"]> ∅)
                          Scenario.world_bib)))
       !! "/home/u/doc/texbuild/refs.bib" = Some (Link "/gone").
Proof. split; reflexivity. Qed.

(** With a free target the link is made. *)
Example symlink_created :
  w_fs (snd (Project.create_bibfile_symlinks Scenario.paper Scenario.world_bib))
    !! "/home/u/doc/texbuild/refs.bib" = Some (Link "/home/u/doc/refs.bib").
Proof. reflexivity. Qed.

(** ** The auxiliary file name *)

Example splitext_tex : Py.splitext "paper.tex" = ("paper", ".tex").
Proof. reflexivity. Qed.
Example splitext_hidden : Py.splitext "/home/u/.bashrc" = ("/home/u/.bashrc", EmptyString).
Proof. reflexivity. Qed.
Example splitext_two : Py.splitext "a.b/paper.tar.gz" = ("a.b/paper.tar", ".gz").
Proof. reflexivity. Qed.

Lemma append_nil_l (b : string) : EmptyString +:+ b = b.
Proof. reflexivity. Qed.

Lemma append_cons (c : ascii) (a b : string) : String c a +:+ b = String c (a +:+ b).
Proof. reflexivity. Qed.

Lemma append_nil_r (a : string) : a +:+ EmptyString = a.
Proof. induction a as [|c a IH]; [reflexivity | now rewrite append_cons, IH]. Qed.

Lemma take_drop (n : nat) (s : string) : Py.take n s +:+ Py.drop n s = s.
Proof.
  revert s. induction n as [|n IH]; intros [|c s]; try reflexivity.
  change (String c (Py.take n s +:+ Py.drop n s) = String c s). now rewrite IH.
Qed.

Lemma take_length_app (a b : string) : Py.take (String.length a) (a +:+ b) = a.
Proof.
  induction a as [|c a IH]; [now destruct b|].
  rewrite append_cons. simpl. now rewrite IH.
Qed.

Lemma length_app (a b : string) :
  String.length (a +:+ b) = (String.length a + String.length b)%nat.
Proof.
  induction a as [|c a IH]; [reflexivity|].
  rewrite append_cons. simpl. now rewrite IH.
Qed.

Lemma app_assoc_string (a b c : string) : (a +:+ b) +:+ c = a +:+ (b +:+ c).
Proof. induction a as [|x a IH]; [reflexivity | now rewrite !append_cons, IH]. Qed.

Lemma drop_last_app (a b : string) :
  String.length b = 3%nat -> Py.drop_last 3 (a +:+ b) = a.
Proof.
  intros Hb. unfold Py.drop_last. rewrite length_app, Hb.
  replace (String.length a + 3 - 3)%nat with (String.length a) by lia.
  apply take_length_app.
Qed.

Lemma rfind1_drop (c : ascii) (s : string) (k : nat) :
  Py.rfind1 c s = S k -> exists r, Py.drop k s = String c r.
Proof.
  revert k. induction s as [|a s IH]; intros k; simpl; [discriminate|].
  destruct (Py.rfind1 c s) as [|j] eqn:Hr.
  - destruct (Ascii.eqb a c) eqn:Ha; [|discriminate].
    intros [= <-]. apply Ascii.eqb_eq in Ha. subst. now exists s.
  - intros [= <-]. simpl. now apply IH.
Qed.

Lemma splitext_parts (s root ext : string) :
  Py.splitext s = (root, ext) ->
  s = root +:+ ext /\ (ext = EmptyString \/ exists e, ext = String "." e).
Proof.
  unfold Py.splitext.
  destruct (Nat.ltb _ _ && negb _) eqn:Hc; intros [= <- <-].
  - split; [now rewrite take_drop|]. right.
    apply andb_prop in Hc as [Hlt _]. apply Nat.ltb_lt in Hlt.
    destruct (Py.rfind1 "." s) as [|k] eqn:Hd; [lia|].
    simpl. rewrite Nat.sub_0_r. now apply rfind1_drop.
  - split; [now rewrite append_nil_r | now left].
Qed.

(** ** Path resolution: the last component of a relative file name *)

Lemma split_nonempty (c : ascii) (s : string) : Py.split c s <> [].
Proof.
  induction s as [|a s IH]; simpl; [discriminate|].
  destruct (Ascii.eqb a c); [discriminate|].
  destruct (Py.split c s); [contradiction | discriminate].
Qed.

Lemma split_app_sep (c : ascii) (a b : string) :
  Py.split c (a +:+ String c b) = (Py.split c a ++ Py.split c b)%list.
Proof.
  induction a as [|x a IH].
  - rewrite append_nil_l. simpl. now rewrite Ascii.eqb_refl.
  - rewrite append_cons. simpl. rewrite IH.
    destruct (Ascii.eqb x c); [reflexivity|].
    pose proof (split_nonempty c a) as Hne.
    destruct (Py.split c a); [contradiction | reflexivity].
Qed.

Lemma rfind1_zero_cons (c a : ascii) (s : string) :
  Py.rfind1 c (String a s) = O -> Ascii.eqb a c = false /\ Py.rfind1 c s = O.
Proof.
  simpl. destruct (Py.rfind1 c s); [|discriminate].
  destruct (Ascii.eqb a c); [discriminate | now split].
Qed.

Lemma split_no_sep (c : ascii) (x : string) : Py.rfind1 c x = O -> Py.split c x = [x].
Proof.
  induction x as [|a x IH]; [reflexivity|].
  intros H. apply rfind1_zero_cons in H as [Ha Hx].
  simpl. now rewrite Ha, (IH Hx).
Qed.

Lemma norm_comps_app (i : nat) (cs rest acc : list string) :
  Py.norm_comps i (cs ++ rest) acc = Py.norm_comps i rest (Py.norm_comps i cs acc).
Proof.
  revert acc. induction cs as [|comp cs IH]; intros acc; simpl; [reflexivity|].
  destruct (String.eqb comp EmptyString || String.eqb comp "."); [apply IH|].
  destruct (negb (String.eqb comp "..") || _ || _); apply IH.
Qed.

Lemma norm_comps_single (i : nat) (x : string) (acc : list string) :
  x <> EmptyString -> x <> "." -> x <> ".." ->
  Py.norm_comps i [x] acc = (acc ++ [x])%list.
Proof.
  intros H0 H1 H2. simpl.
  apply String.eqb_neq in H0, H1, H2. now rewrite H0, H1, H2.
Qed.

Lemma endswith_split (c : ascii) (s : string) :
  Py.endswith c s = true -> exists q, s = q +:+ String c EmptyString.
Proof.
  induction s as [|a s IH]; [discriminate|].
  simpl. destruct s as [|b s].
  - intros H. apply Ascii.eqb_eq in H. subst. now exists EmptyString.
  - intros H. destruct (IH H) as [q Hq]. exists (String a q).
    now rewrite append_cons, <- Hq.
Qed.

Lemma rfind1_app_sep (c : ascii) (q x : string) :
  Py.rfind1 c x = O -> Py.rfind1 c (q +:+ String c x) = S (String.length q).
Proof.
  intros Hx. induction q as [|a q IH].
  - rewrite append_nil_l. simpl. now rewrite Hx, Ascii.eqb_refl.
  - rewrite append_cons. simpl. now rewrite IH.
Qed.

Lemma drop_length_app (q x : string) : Py.drop (String.length q) (q +:+ x) = x.
Proof. induction q as [|a q IH]; [now destruct x | now rewrite append_cons]. Qed.

Lemma basename_app_sep (q x : string) :
  Py.rfind1 Py.slash x = O -> Py.basename (q +:+ String Py.slash x) = x.
Proof.
  intros Hx. unfold Py.basename. rewrite (rfind1_app_sep _ _ _ Hx).
  change (String Py.slash x) with (String Py.slash EmptyString +:+ x).
  rewrite <- app_assoc_string.
  replace (S (String.length q)) with (String.length (q +:+ String Py.slash EmptyString))
    by (rewrite length_app; simpl; lia).
  apply drop_length_app.
Qed.

Lemma concat_app_last (sep : string) (acc : list string) (x : string) :
  acc <> [] -> String.concat sep (acc ++ [x]) = String.concat sep acc +:+ sep +:+ x.
Proof.
  induction acc as [|a acc IH]; [contradiction|]. intros _.
  destruct acc as [|b acc].
  - reflexivity.
  - change (String.concat sep ((a :: b :: acc) ++ [x]))
      with (a +:+ sep +:+ String.concat sep ((b :: acc) ++ [x])).
    rewrite IH by discriminate.
    change (String.concat sep (a :: b :: acc)) with (a +:+ sep +:+ String.concat sep (b :: acc)).
    now rewrite !app_assoc_string.
Qed.

(** A file name without directory part keeps its name through
    [os.path.abspath], whatever the working directory. *)
Lemma basename_abspath (cwd x : string) :
  Py.rfind1 Py.slash x = O -> x <> EmptyString -> x <> "." -> x <> ".." ->
  Py.basename (Py.abspath cwd x) = x.
Proof.
  intros Hx H0 H1 H2.
  assert (Hstart : Py.startswith Py.slash x = false).
  { destruct x as [|a x]; [reflexivity|]. now apply rfind1_zero_cons in Hx as [Ha _]. }
  assert (Hnorm : forall q, Py.basename (Py.normpath (q +:+ String Py.slash x)) = x).
  { intros q. unfold Py.normpath.
    destruct (String.eqb (q +:+ String Py.slash x) EmptyString) eqn:He.
    { apply String.eqb_eq in He. destruct q; discriminate. }
    rewrite split_app_sep, (split_no_sep _ _ Hx), norm_comps_app.
    set (i := if Py.startswith Py.slash (q +:+ String Py.slash x) then _ else _).
    rewrite (norm_comps_single _ _ _ H0 H1 H2).
    set (acc := Py.norm_comps i (Py.split Py.slash q) []).
    assert (Hshape : exists pre,
               String.concat EmptyString (repeat "/" i) +:+ String.concat "/" (acc ++ [x])
               = pre +:+ String Py.slash x
               \/ (String.concat EmptyString (repeat "/" i) +:+ String.concat "/" (acc ++ [x])
                   = x /\ pre = EmptyString)).
    { destruct acc as [|a acc'] eqn:Hacc.
      - assert (Hi : i = 0%nat \/ i = 1%nat \/ i = 2%nat).
        { subst i.
          repeat match goal with
                 | |- context [if ?b then _ else _] => destruct b
                 end; auto. }
        destruct Hi as [->|[->| ->]].
        + exists EmptyString. right. now split.
        + exists EmptyString. left. reflexivity.
        + exists "/". left. reflexivity.
      - exists (String.concat EmptyString (repeat "/" i) +:+ String.concat "/" (a :: acc')).
        left. rewrite concat_app_last by discriminate.
        now rewrite !app_assoc_string. }
    destruct Hshape as [pre [Hs|[Hs _]]]; rewrite Hs.
    - destruct (String.eqb (pre +:+ String Py.slash x) EmptyString) eqn:He2.
      { apply String.eqb_eq in He2. destruct pre; discriminate. }
      now apply basename_app_sep.
    - apply String.eqb_neq in H0. rewrite H0. unfold Py.basename. now rewrite Hx. }
  unfold Py.abspath, Py.isabs. rewrite Hstart. unfold Py.path_join. rewrite Hstart.
  destruct (String.eqb cwd EmptyString) eqn:Hc.
  - apply String.eqb_eq in Hc. subst cwd. simpl. rewrite append_nil_l.
    unfold Py.normpath. apply String.eqb_neq in H0. rewrite H0, Hstart.
    rewrite (split_no_sep _ _ Hx), (norm_comps_single _ _ _ (proj1 (String.eqb_neq _ _) H0) H1 H2).
    simpl. rewrite !append_nil_l, H0. unfold Py.basename. now rewrite Hx.
  - simpl. destruct (Py.endswith Py.slash cwd) eqn:He.
    + destruct (endswith_split _ _ He) as [q ->].
      rewrite app_assoc_string. apply Hnorm.
    + apply Hnorm.
Qed.

Example basename_abspath_ex : Py.basename (Py.abspath "//srv/./a/../b/" "paper.tex") = "paper.tex".
Proof. reflexivity. Qed.

(** ** Building the project *)

Lemma instantiate_pure (name : string) (w : world) :
  (exists o, instantiate name w = (Return o, w)) \/ (exists e, instantiate name w = (Raise e, w)).
Proof.
  unfold instantiate.
  repeat (destruct (String.eqb name _); [left; eexists; reflexivity|]).
  destruct (String.eqb name _); [right; eexists; reflexivity|].
  destruct (bool_decide _); right; eexists; reflexivity.
Qed.

Lemma abspath_returns (path : string) (w : world) :
  os_path_abspath (Some path) w = (Return (Py.abspath (w_cwd w) path), w).
Proof. reflexivity. Qed.

Lemma adapter_arguments_returns (a : adapter) (options : texoptions) (w : world) :
  exists l, adapter_arguments a options w = (Return l, w).
Proof.
  destruct a. unfold adapter_arguments, PdfLatexCompiler.arguments.
  destruct (opt_builddir options); eexists; reflexivity.
Qed.

(** A project that [__init__] returns was given a main document, and holds
    its absolute path; building it leaves the world as it was. *)
Lemma init_filepath (opts : texoptions) (w w' : world) (p : Project.t) :
  Project.__init__ opts w = (Return p, w') ->
  exists name, opt_maintex opts = Some name
               /\ Project.filepath p = Py.abspath (w_cwd w) name /\ w' = w.
Proof.
  unfold Project.__init__. intros H.
  destruct (instantiate_pure (opt_latex opts) w) as [[o Ho]|[e He]];
    [rewrite (bind_return _ _ _ _ _ Ho) in H | now rewrite (bind_raise _ _ _ _ _ He) in H].
  destruct (opt_maintex opts) as [name|]; [|discriminate H].
  rewrite (bind_return _ _ _ _ _ (abspath_returns name w)) in H.
  exists name. split; [reflexivity|].
  assert (Hb : exists b, match opt_builddir opts with
                         | Some b => os_path_abspath (Some b)
                         | None => ret (Py.dirname (Py.abspath (w_cwd w) name))
                         end w = (Return b, w))
    by (destruct (opt_builddir opts); eexists; reflexivity).
  destruct Hb as [b Hb]. rewrite (bind_return _ _ _ _ _ Hb) in H.
  destruct o as [a| | |]; try discriminate H.
  unfold bind at 1 in H. simpl in H.
  destruct (adapter_arguments_returns a opts w) as [l Hl].
  rewrite (bind_return _ _ _ _ _ Hl) in H.
  destruct (instantiate_pure (opt_logger opts) w) as [[o Ho']|[e He]];
    [rewrite (bind_return _ _ _ _ _ Ho') in H | now rewrite (bind_raise _ _ _ _ _ He) in H].
  injection H as <- <-. now split.
Qed.

(** ** The auxiliary file name, continued *)

(** C6 does not hold for every file name: an extension of five letters is
    not replaced. *)
Lemma aux_filename_of_longer_extension :
  ~ (forall p : Project.t,
        Project.reference_auxiliary_filename p
        = replace_extension (Project.main_texfile p) "aux").
Proof.
  intros H. specialize (H Scenario.paper_latex). vm_compute in H. discriminate H.
Qed.

Example aux_filename_latex :
  Project.reference_auxiliary_filename Scenario.paper_latex = "paper.laaux"
  /\ replace_extension (Project.main_texfile Scenario.paper_latex) "aux" = "paper.aux".
Proof. split; reflexivity. Qed.

(** C6, amended. The auxiliary file name is the file name of the main
    document without its last three characters, followed by [aux]; whenever
    the extension of the file name has three characters after its dot this is
    the file name with its extension replaced by [aux], and a project built
    for [paper.tex] derives [paper.aux], in any working directory. *)
Theorem aux_filename_three_letter_extension :
  (forall p : Project.t,
      Project.reference_auxiliary_filename p
      = Py.drop_last 3 (Project.main_texfile p) +:+ "aux")
  /\ (forall (p : Project.t) (root ext : string),
         Py.splitext (Project.main_texfile p) = (root, ext) ->
         String.length ext = 4%nat ->
         Project.reference_auxiliary_filename p
         = replace_extension (Project.main_texfile p) "aux")
  /\ (forall (opts : texoptions) (w w' : world) (p : Project.t),
         opt_maintex opts = Some "paper.tex" ->
         Project.__init__ opts w = (Return p, w') ->
         Project.reference_auxiliary_filename p = "paper.aux").
Proof.
  split; [reflexivity|]. split.
  - intros p root ext Hsplit Hlen.
    unfold Project.reference_auxiliary_filename, replace_extension. rewrite Hsplit. simpl.
    destruct (splitext_parts _ _ _ Hsplit) as [Hname [->|[e ->]]]; [discriminate Hlen|].
    rewrite Hname.
    change (String "." e) with (String "." EmptyString +:+ e).
    rewrite <- app_assoc_string, drop_last_app by (simpl in Hlen; lia).
    now rewrite app_assoc_string.
  - intros opts w w' p Hmain Hinit.
    destruct (init_filepath _ _ _ _ Hinit) as (name & Hname & Hpath & _).
    rewrite Hmain in Hname. injection Hname as <-.
    unfold Project.reference_auxiliary_filename, Project.main_texfile.
    rewrite Hpath, basename_abspath; [reflexivity | reflexivity | discriminate ..].
Qed.

Lemma aux_filename_three_letter_extension_witness :
  Project.reference_auxiliary_filename Scenario.paper = "paper.aux"
  /\ forall p w', Project.__init__ (Scenario.options "paper.tex") Scenario.world0 = (Return p, w') ->
                  Project.reference_auxiliary_filename p = "paper.aux".
Proof.
  split.
  - rewrite (proj1 (proj2 aux_filename_three_letter_extension) Scenario.paper "paper" ".tex");
      reflexivity.
  - intros p w'.
    apply (proj2 (proj2 aux_filename_three_letter_extension)
                 (Scenario.options "paper.tex") Scenario.world0 w' p).
    reflexivity.
Defined.

(** ** [main] *)






Example main_rc_missing :
  main 1 ["compiletex"] Scenario.world0
  = (Raise (RuntimeError "no tex file provided"), Scenario.world0).
Proof. reflexivity. Qed.

Example main_rc_without_maintex :
  main 1 ["compiletex"] Scenario.world_rc_builddir = (Raise TypeError, Scenario.world_rc_builddir).
Proof. reflexivity. Qed.

Example main_rc_two_equal_signs :
  main 1 ["compiletex"] (Scenario.with_rc ["maintex = a=b.tex"])
  = (Raise (RuntimeError "no tex file provided"), Scenario.with_rc ["maintex = a=b.tex"]).
Proof. reflexivity. Qed.

(** ** The bibliography step *)

Lemma bibliography_unit_policy (p : Project.t) :
  CompilationUnit.ok (Project.bibliography_unit p) = [0]
  /\ CompilationUnit.warn (Project.bibliography_unit p) = [2].
Proof. split; reflexivity. Qed.

Lemma main_file_unit_policy (p : Project.t) :
  CompilationUnit.ok (Project.main_file_compilation p) = [0]
  /\ CompilationUnit.warn (Project.main_file_compilation p) = [].
Proof. split; reflexivity. Qed.

(** Return code 1 from [bibtex]: the step raises and the two later passes
    are not run. *)
Example bibtex_exit_1_aborts :
  fst (Project.compile Scenario.paper (Scenario.world_bibtex 1 []))
  = Raise (RuntimeError "Process 'bibtex paper.aux' exited with status '1', stdout:'b''', stderr: 'b'''")
  /\ List.filter is_spawn (w_trace (snd (Project.compile Scenario.paper (Scenario.world_bibtex 1 []))))
     = [Scenario.pdflatex_spawn; Scenario.bibtex_spawn].
Proof. split; reflexivity. Qed.

(** Return code 2 from [bibtex] with an output free of braces: the warning
    is written and the two later passes run. *)
Example bibtex_exit_2_continues :
  fst (Project.compile Scenario.paper
         (Scenario.world_bibtex 2 (list_byte_of_string "Warning--empty year in knuth84")))
  = Return tt
  /\ List.filter is_spawn
       (w_trace (snd (Project.compile Scenario.paper
                        (Scenario.world_bibtex 2 (list_byte_of_string "Warning--empty year in knuth84")))))
     = [Scenario.pdflatex_spawn; Scenario.bibtex_spawn;
        Scenario.pdflatex_spawn; Scenario.pdflatex_spawn]
  /\ Write ("Process 'bibtex paper.aux' exited with status '2', stdout:'b'Warning--empty year in knuth84'', stderr: 'b'''"
            +:+ String Py.newline EmptyString)
     ∈ w_trace (snd (Project.compile Scenario.paper
                       (Scenario.world_bibtex 2 (list_byte_of_string "Warning--empty year in knuth84")))).
Proof.
  split; [reflexivity|]. split; [reflexivity|].
  vm_compute. repeat (first [apply list_elem_of_here | apply list_elem_of_further]).
Qed.

(** C5. The bibliography unit is built with ok = [0] and warn = [2], yet
    return code 2 does abort the pipeline when the output of [bibtex] holds a
    brace: [Logger] hands the warning to [str.format], which raises on it, so
    the step fails and the two later passes are not run. *)
Theorem bibtex_exit_2_with_brace_aborts :
  fst (Project.compile Scenario.paper (Scenario.world_bibtex 2 Scenario.bibtex_complaint))
  = Raise FormatError
  /\ List.filter is_spawn
       (w_trace (snd (Project.compile Scenario.paper
                        (Scenario.world_bibtex 2 Scenario.bibtex_complaint))))
     = [Scenario.pdflatex_spawn; Scenario.bibtex_spawn]
  /\ 2 ∈ CompilationUnit.warn (Project.bibliography_unit Scenario.paper).
Proof.
  split; [reflexivity|]. split; [reflexivity|].
  vm_compute. apply list_elem_of_here.
Qed.

(* ===================================================================== *)
(** * Further properties *)
(* ===================================================================== *)

(** ** The pipeline of a project *)

Lemma generate_compilation_returns (p : Project.t) (w : world) :
  Project._generate_compilation p w
  = (Return {| CompilationProcess.elements := plan_elements p (finds_bibfiles p w) |}, w).
Proof.
  unfold Project._generate_compilation, plan_elements, finds_bibfiles,
    Project.has_bibtex, Project.bibfiles, glob_glob, fmt, get, CompilationProcess.add.
  simpl.
  destruct (String.eqb (Project.builddir p) EmptyString); simpl;
    unfold bind, ret; simpl;
    destruct (w_glob w (Project.path p +:+ "/*.bib")); reflexivity.
Qed.

Lemma project_compile_runs_plan (p : Project.t) (w : world) :
  Project.compile p w = for_each (plan_elements p (finds_bibfiles p w)) call w.
Proof.
  unfold Project.compile.
  now rewrite (bind_return _ _ _ _ _ (generate_compilation_returns p w)).
Qed.

(** ** Relations kept by a run *)

Section Keeps.

Variable R : world -> world -> Prop.
Variable spawn_ok : bool.
Hypothesis R_refl : forall w, R w w.
Hypothesis R_trans : forall w1 w2 w3, R w1 w2 -> R w2 w3 -> R w1 w3.
Hypothesis R_emit : forall e w,
  spawn_ok || negb (is_spawn e) = true -> R w (set_trace (w_trace w ++ [e]) w).
Hypothesis R_create : forall p e w,
  w_fs w !! p = None -> R w (set_fs (<[p := e]> (w_fs w)) w).

Lemma keeps_ret {A} (a : A) : keeps R (ret a).
Proof. intros w. apply R_refl. Qed.

Lemma keeps_raise {A} (e : exn) : keeps R (@raise A e).
Proof. intros w. apply R_refl. Qed.

Lemma keeps_blocked {A} : keeps R (fun w => (@Blocked A, w)).
Proof. intros w. apply R_refl. Qed.

Lemma keeps_get {A} (f : world -> A) : keeps R (get f).
Proof. intros w. apply R_refl. Qed.

Lemma keeps_bind {A B} (m : M A) (k : A -> M B) :
  keeps R m -> (forall a, keeps R (k a)) -> keeps R (bind m k).
Proof.
  intros Hm Hk w. unfold bind. specialize (Hm w).
  destruct (m w) as [[a|e|] w1]; simpl in *; [|assumption ..].
  eapply R_trans; [exact Hm | apply Hk].
Qed.

Lemma keeps_try_except {A} (m : M A) (handler : exn -> option (M A)) :
  keeps R m -> (forall e h, handler e = Some h -> keeps R h) -> keeps R (try_except m handler).
Proof.
  intros Hm Hh w. unfold try_except. specialize (Hm w).
  destruct (m w) as [[a|e|] w1]; simpl in *; try assumption.
  destruct (handler e) as [h|] eqn:He; simpl; [|assumption].
  eapply R_trans; [exact Hm | apply (Hh _ _ He)].
Qed.

Lemma keeps_for_each_in {A} (l : list A) (body : A -> M unit) :
  Forall (fun x => keeps R (body x)) l -> keeps R (for_each l body).
Proof.
  induction 1 as [|x l Hx _ IH]; simpl; [apply keeps_ret|].
  apply keeps_bind; [exact Hx | intros _; exact IH].
Qed.

Lemma keeps_for_each {A} (l : list A) (body : A -> M unit) :
  (forall x, keeps R (body x)) -> keeps R (for_each l body).
Proof. intros Hb. apply keeps_for_each_in, Forall_forall. intros x _. apply Hb. Qed.

Lemma keeps_fold_m {A B} (step : B -> A -> M B) (l : list A) (acc : B) :
  (forall b x, keeps R (step b x)) -> keeps R (fold_m step l acc).
Proof.
  intros Hs. revert acc. induction l as [|x l IH]; intros acc; simpl; [apply keeps_ret|].
  apply keeps_bind; [apply Hs | intros b; apply IH].
Qed.

Lemma keeps_fmt (template : string) (args : list string) : keeps R (fmt template args).
Proof. unfold fmt. destruct (Py.format template args); [apply keeps_ret | apply keeps_raise]. Qed.

Lemma keeps_emit (e : event) : spawn_ok || negb (is_spawn e) = true -> keeps R (emit e).
Proof. intros He w. now apply R_emit. Qed.

Lemma keeps_create (p : string) (e : fentry) : keeps R (create p e).
Proof.
  intros w. unfold create.
  destruct (w_denied w p || bool_decide (is_Some (w_fs w !! p))) eqn:Hc; simpl; [apply R_refl|].
  apply R_create. apply orb_false_iff in Hc as [_ Hc]. apply bool_decide_eq_false in Hc.
  now apply eq_None_not_Some.
Qed.

Ltac keeps_auto :=
  repeat first
    [ apply keeps_ret | apply keeps_raise | apply keeps_get | apply keeps_fmt
    | apply keeps_create
    | apply keeps_emit; rewrite ?orb_true_r; reflexivity
    | apply keeps_bind; [|intros ?]
    | apply keeps_for_each; intros ?
    | match goal with
      | |- keeps _ (if ?b then _ else _) => destruct b
      | |- keeps _ (match ?x with _ => _ end) => destruct x
      end ].

Lemma keeps_call_log (l : object) (template : string) (args : list string) :
  keeps R (call_log l template args).
Proof. unfold call_log, Logger.__call__, NullLogger.__call__. destruct l; keeps_auto. Qed.

Lemma keeps_os_mkdir (p : string) : keeps R (os_mkdir p).
Proof. unfold os_mkdir. keeps_auto. Qed.

Lemma keeps_os_symlink (src dst : string) : keeps R (os_symlink src dst).
Proof. unfold os_symlink. keeps_auto. Qed.

Lemma keeps_deal_timeout (u : CompilationUnit.t) (p : process) :
  keeps R (CompilationUnit._deal_timeout u p).
Proof.
  unfold CompilationUnit._deal_timeout, terminate, poll, kill, communicate.
  repeat first [apply keeps_call_log | apply keeps_blocked | keeps_auto].
Qed.

Lemma keeps_deal_return_code (u : CompilationUnit.t) (rc : Z) (out err : list byte) :
  keeps R (CompilationUnit._deal_return_code u rc out err).
Proof.
  unfold CompilationUnit._deal_return_code, CompilationUnit.message.
  repeat first [apply keeps_call_log | keeps_auto].
Qed.

Lemma keeps_create_build_dir (p : Project.t) : keeps R (Project.create_build_dir p).
Proof.
  unfold Project.create_build_dir, os_path_exists.
  repeat first [apply keeps_call_log | apply keeps_os_mkdir | keeps_auto].
Qed.

Lemma keeps_create_bibfile_symlinks (p : Project.t) : keeps R (Project.create_bibfile_symlinks p).
Proof.
  unfold Project.create_bibfile_symlinks, Project.bibfiles, glob_glob, os_path_exists.
  repeat first [apply keeps_call_log | apply keeps_os_symlink | keeps_auto].
Qed.


Lemma keeps_main_file_log (p : Project.t) : keeps R (Project.main_file_log p).
Proof. apply keeps_call_log. Qed.

Lemma keeps_reference_log (p : Project.t) : keeps R (Project.reference_log p).
Proof. apply keeps_call_log. Qed.

(** With a relation that allows a process to start. *)
Hypothesis spawn_allowed : spawn_ok = true.

Lemma keeps_run_process (u : CompilationUnit.t) : keeps R (CompilationUnit._run_process u).
Proof.
  unfold CompilationUnit._run_process, Popen, communicate_timeout.
  apply keeps_bind.
  { repeat first [apply keeps_emit; rewrite spawn_allowed; reflexivity | keeps_auto]. }
  intros p. apply keeps_bind.
  { apply keeps_try_except; [keeps_auto|].
    intros e h He. destruct e; try discriminate He. injection He as <-.
    apply keeps_deal_timeout. }
  intros [[rc out] err]. apply keeps_bind; [apply keeps_deal_return_code|]. intros _. keeps_auto.
Qed.

Lemma keeps_unit_call (u : CompilationUnit.t) :
  keeps R (CompilationUnit.precall u) -> keeps R (CompilationUnit.postcall u) ->
  keeps R (CompilationUnit.__call__ u).
Proof.
  intros Hpre Hpost. unfold CompilationUnit.__call__.
  apply keeps_bind; [exact Hpre|]. intros _.
  apply keeps_bind; [apply keeps_run_process|]. intros r.
  apply keeps_bind; [exact Hpost|]. intros _. keeps_auto.
Qed.

Lemma keeps_project_compile (p : Project.t) : keeps R (Project.compile p).
Proof.
  assert (Hmain : keeps R (call (UnitObj (Project.main_file_compilation p)))).
  { simpl. apply keeps_bind; [|intros ?; keeps_auto].
    apply keeps_unit_call; [apply keeps_main_file_log | keeps_auto]. }
  assert (Hbib : keeps R (call (UnitObj (Project.bibliography_unit p)))).
  { simpl. apply keeps_bind; [|intros ?; keeps_auto].
    apply keeps_unit_call; [apply keeps_reference_log | keeps_auto]. }
  intros w. rewrite project_compile_runs_plan.
  apply keeps_for_each_in. unfold plan_elements.
  destruct (String.eqb (Project.builddir p) EmptyString), (finds_bibfiles p w); simpl;
    repeat constructor; first [exact Hmain | exact Hbib
                              | apply keeps_create_build_dir
                              | apply keeps_create_bibfile_symlinks].
Qed.

End Keeps.

(** ** What a build does to the file system and to the processes *)

Lemma fs_grows_refl (w : world) : fs_grows w w.
Proof. unfold fs_grows. reflexivity. Qed.

Lemma fs_grows_trans (w1 w2 w3 : world) : fs_grows w1 w2 -> fs_grows w2 w3 -> fs_grows w1 w3.
Proof. unfold fs_grows. intros H1 H2. now transitivity (w_fs w2). Qed.

Lemma fs_grows_create (p : string) (e : fentry) (w : world) :
  w_fs w !! p = None -> fs_grows w (set_fs (<[p := e]> (w_fs w)) w).
Proof. intros H. unfold fs_grows. simpl. now apply insert_subseteq. Qed.



Lemma same_spawns_refl (w : world) : same_spawns w w.
Proof. reflexivity. Qed.

Lemma same_spawns_trans (w1 w2 w3 : world) :
  same_spawns w1 w2 -> same_spawns w2 w3 -> same_spawns w1 w3.
Proof. unfold same_spawns. congruence. Qed.

Lemma same_spawns_emit (e : event) (w : world) :
  false || negb (is_spawn e) = true -> same_spawns w (set_trace (w_trace w ++ [e]) w).
Proof.
  simpl. intros He. apply negb_true_iff in He. unfold same_spawns. simpl.
  rewrite List.filter_app. simpl. rewrite He. apply app_nil_r.
Qed.

(** X1. The calls the driver itself makes on the file system only add
    entries: whatever a build does and however it ends, every entry that was
    there when it started is still there, unchanged. *)
Theorem project_compile_only_adds_entries (p : Project.t) (w : world) :
  w_fs w ⊆ w_fs (snd (Project.compile p w)).
Proof.
  apply (keeps_project_compile fs_grows true fs_grows_refl fs_grows_trans).
  - intros e w' _. unfold fs_grows. reflexivity.
  - apply fs_grows_create.
  - reflexivity.
Qed.

Lemma popen_world (command : list string) (cwd : option string) (w : world) :
  snd (Popen command cwd w) = set_trace (w_trace w ++ [Spawn command cwd]) w.
Proof. unfold Popen, bind, get, emit. simpl. destruct (w_popen w _ _ _); reflexivity. Qed.

Lemma same_spawns_keeps_deal_timeout (u : CompilationUnit.t) (p : process) :
  keeps same_spawns (CompilationUnit._deal_timeout u p).
Proof.
  apply keeps_deal_timeout with (spawn_ok := false);
    first [exact same_spawns_refl | exact same_spawns_trans | exact same_spawns_emit].
Qed.

Lemma same_spawns_keeps_deal_return_code (u : CompilationUnit.t) (rc : Z) (out err : list byte) :
  keeps same_spawns (CompilationUnit._deal_return_code u rc out err).
Proof.
  apply keeps_deal_return_code with (spawn_ok := false);
    first [exact same_spawns_refl | exact same_spawns_trans | exact same_spawns_emit].
Qed.

Lemma run_process_spawns (u : CompilationUnit.t) (w : world) :
  spawns (snd (CompilationUnit._run_process u w)) = (spawns w ++ [spawn_of u])%list.
Proof.
  assert (H1 : spawns (snd (Popen (CompilationUnit.command u) (CompilationUnit.cwd u) w))
               = (spawns w ++ [spawn_of u])%list).
  { rewrite popen_world. unfold spawns. simpl. now rewrite List.filter_app. }
  rewrite <- H1. clear H1. unfold CompilationUnit._run_process, bind at 1.
  destruct (Popen (CompilationUnit.command u) (CompilationUnit.cwd u) w) as [[p|e|] w1];
    [|reflexivity ..].
  simpl snd at 2.
  revert w1.
  change (keeps same_spawns
            (r <- try_except (communicate_timeout p (CompilationUnit.timeout u))
                   (fun e => match e with
                             | TimeoutExpired => Some (CompilationUnit._deal_timeout u p)
                             | _ => None
                             end) ;;
             let '(returncode, out, err) := r in
             CompilationUnit._deal_return_code u returncode out err ;;
             ret (out, err))).
  apply keeps_bind; [apply same_spawns_trans| |].
  - apply keeps_try_except; [apply same_spawns_trans| |].
    + unfold communicate_timeout.
      apply keeps_bind; [apply same_spawns_trans| |].
      * apply keeps_emit with (spawn_ok := false); [exact same_spawns_emit | reflexivity].
      * intros _. destruct (p_timed_out p); intros w'; reflexivity.
    + intros e h He. destruct e; try discriminate He. injection He as <-.
      apply same_spawns_keeps_deal_timeout.
  - intros [[rc out] err].
    apply keeps_bind; [apply same_spawns_trans| |].
    + apply same_spawns_keeps_deal_return_code.
    + intros _ w'. reflexivity.
Qed.

Lemma unit_call_spawns (u : CompilationUnit.t) (w : world) :
  keeps same_spawns (CompilationUnit.precall u) ->
  keeps same_spawns (CompilationUnit.postcall u) ->
  exists l,
    spawns (snd (CompilationUnit.__call__ u w)) = (spawns w ++ l)%list
    /\ (l = [] \/ l = [spawn_of u])
    /\ (l = [] <-> fst (CompilationUnit.precall u w) <> Return tt)
    /\ ((exists r, fst (CompilationUnit.__call__ u w) = Return r) -> l = [spawn_of u]).
Proof.
  intros Hpre Hpost. unfold CompilationUnit.__call__, bind.
  specialize (Hpre w). unfold same_spawns in Hpre. fold (spawns w) in Hpre.
  destruct (CompilationUnit.precall u w) as [[[]|e|] w0]; simpl in Hpre |- *.
  - pose proof (run_process_spawns u w0) as Hrun.
    destruct (CompilationUnit._run_process u w0) as [[r|e|] w2]; simpl in Hrun |- *.
    + specialize (Hpost w2). unfold same_spawns in Hpost.
      destruct (CompilationUnit.postcall u w2) as [[[]|e|] w3]; simpl in Hpost |- *;
        exists [spawn_of u]; fold (spawns w3) in Hpost; unfold spawns in *;
        (split; [congruence|]); (split; [now right|]);
        (split; [split; [discriminate | congruence] | reflexivity]).
    + exists [spawn_of u]. unfold spawns in *.
      split; [congruence|]. split; [now right|].
      split; [split; [discriminate | congruence] | reflexivity].
    + exists [spawn_of u]. unfold spawns in *.
      split; [congruence|]. split; [now right|].
      split; [split; [discriminate | congruence] | reflexivity].
  - exists []. unfold spawns in *. rewrite app_nil_r.
    split; [assumption|]. split; [now left|].
    split; [split; [intros _; discriminate | reflexivity] | intros [r Hr]; discriminate Hr].
  - exists []. unfold spawns in *. rewrite app_nil_r.
    split; [assumption|]. split; [now left|].
    split; [split; [intros _; discriminate | reflexivity] | intros [r Hr]; discriminate Hr].
Qed.



Lemma pipeline_spawns (vs : list value) (w : world) :
  Forall starts_own_process_only vs ->
  exists k,
    spawns (snd (for_each vs call w))
    = (spawns w ++ firstn k (map spawn_of (units_of vs)))%list
    /\ (fst (for_each vs call w) = Return tt -> k = length (units_of vs)).
Proof.
  intros Hvs. revert w. induction Hvs as [|v vs Hv _ IH]; intros w.
  - exists 0%nat. simpl. rewrite app_nil_r. now split.
  - simpl for_each. unfold bind.
    destruct v as [u|f|].
    + destruct Hv as [Hpre Hpost].
      destruct (unit_call_spawns u w Hpre Hpost) as (l & Hl & Hcases & _ & Hret).
      simpl call. unfold bind.
      destruct (CompilationUnit.__call__ u w) as [[r|e|] w1]; simpl in Hl, Hret |- *.
      * rewrite (Hret (ex_intro _ r eq_refl)) in Hl.
        destruct (IH w1) as (k & Hk & Hkret). exists (S k). simpl.
        rewrite Hk, Hl, <- app_assoc. split; [reflexivity|].
        intros Hr. now rewrite (Hkret Hr).
      * destruct Hcases as [->| ->]; [exists 0%nat | exists 1%nat]; simpl;
          (split; [assumption | discriminate]).
      * destruct Hcases as [->| ->]; [exists 0%nat | exists 1%nat]; simpl;
          (split; [assumption | discriminate]).
    + simpl in Hv. specialize (Hv w). unfold same_spawns in Hv. simpl call.
      destruct (f w) as [[[]|e|] w1]; simpl in Hv |- *.
      * destruct (IH w1) as (k & Hk & Hkret). exists k.
        unfold spawns in *. rewrite Hk, Hv. now split.
      * exists 0%nat. unfold spawns. simpl. rewrite app_nil_r. split; [assumption | discriminate].
      * exists 0%nat. unfold spawns. simpl. rewrite app_nil_r. split; [assumption | discriminate].
    + simpl. exists 0%nat. rewrite app_nil_r. split; [reflexivity | discriminate].
Qed.

Lemma same_spawns_keeps_call_log (l : object) (template : string) (args : list string) :
  keeps same_spawns (call_log l template args).
Proof.
  apply keeps_call_log with (spawn_ok := false);
    first [exact same_spawns_refl | exact same_spawns_trans | exact same_spawns_emit].
Qed.

Lemma plan_starts_own_processes_only (p : Project.t) (bib : bool) :
  Forall starts_own_process_only (plan_elements p bib).
Proof.
  assert (Hcreate : forall q e w, w_fs w !! q = None ->
                                  same_spawns w (set_fs (<[q := e]> (w_fs w)) w))
    by (intros; reflexivity).
  assert (Hmain : starts_own_process_only (UnitObj (Project.main_file_compilation p))).
  { split; [apply same_spawns_keeps_call_log | intros w; reflexivity]. }
  assert (Hbib : starts_own_process_only (UnitObj (Project.bibliography_unit p))).
  { split; [apply same_spawns_keeps_call_log | intros w; reflexivity]. }
  assert (Hdir : starts_own_process_only (FunctionObj (Project.create_build_dir p))).
  { simpl. apply keeps_create_build_dir with (spawn_ok := false);
      first [exact same_spawns_refl | exact same_spawns_trans | exact same_spawns_emit
            | exact Hcreate]. }
  assert (Hsym : starts_own_process_only (FunctionObj (Project.create_bibfile_symlinks p))).
  { simpl. apply keeps_create_bibfile_symlinks with (spawn_ok := false);
      first [exact same_spawns_refl | exact same_spawns_trans | exact same_spawns_emit
            | exact Hcreate]. }
  unfold plan_elements.
  destruct (String.eqb (Project.builddir p) EmptyString), bib; simpl;
    repeat (constructor; [assumption|]); constructor.
Qed.

(** X3. A build starts processes only for the units of its plan, in the
    order of the plan and each at most once: the typesetting tool, and with
    bibliography files the bibliography processor and the typesetting tool
    twice more.  It starts all of them when it returns, and a first part of
    them when it fails. *)
Theorem project_compile_starts_plan_processes (p : Project.t) (w : world) :
  exists k,
    spawns (snd (Project.compile p w))
    = (spawns w
       ++ firstn k (spawn_of (Project.main_file_compilation p)
                    :: (if finds_bibfiles p w
                        then [spawn_of (Project.bibliography_unit p);
                              spawn_of (Project.main_file_compilation p);
                              spawn_of (Project.main_file_compilation p)]
                        else [])))%list
    /\ (fst (Project.compile p w) = Return tt ->
        k = if finds_bibfiles p w then 4%nat else 1%nat).
Proof.
  rewrite project_compile_runs_plan.
  destruct (pipeline_spawns _ w (plan_starts_own_processes_only p (finds_bibfiles p w)))
    as (k & Hk & Hret).
  exists k. rewrite Hk. unfold plan_elements in *.
  destruct (String.eqb (Project.builddir p) EmptyString), (finds_bibfiles p w);
    simpl in *; split; auto.
Qed.

(** ** Doing a step twice *)













(** Without that condition the step is not idempotent: a bibliography file
    that is itself a dangling link gets a link that does not exist for
    [os.path.exists], and the second call fails on it. *)
Example create_bibfile_symlinks_twice_on_dangling_bibfile :
  fst (Project.create_bibfile_symlinks Scenario.paper Scenario.world_bib_dangling) = Return tt
  /\ fst (Project.create_bibfile_symlinks Scenario.paper
            (snd (Project.create_bibfile_symlinks Scenario.paper Scenario.world_bib_dangling)))
     = Raise OSError.
Proof. split; reflexivity. Qed.

(** ** Building and running a pipeline *)

Lemma fold_add_rejects (vs : list value) (c : CompilationProcess.t) (w : world) :
  Exists (fun v => callable v = false) vs ->
  fold_m CompilationProcess.add vs c w = (Raise TypeError, w).
Proof.
  intros H. revert c. induction vs as [|v vs IH]; intros c; [inversion H|].
  simpl. destruct (callable v) eqn:Hv.
  - rewrite (bind_return _ _ _ _ _ (add_callable c v w Hv)). apply IH.
    inversion H as [? ? Hx|]; subst; [congruence | assumption].
  - now rewrite (bind_raise _ _ _ _ _ (add_not_callable c v w Hv)).
Qed.

(** X6. Adding values to a pipeline one after the other succeeds exactly
    when every value can be called; it then keeps them in the order given,
    after the elements already there.  Otherwise it raises [TypeError].  In
    both cases the world is left as it was. *)
Theorem add_all_succeeds_iff_callable (vs : list value) (c : CompilationProcess.t) (w : world) :
  ((exists c', fold_m CompilationProcess.add vs c w = (Return c', w))
   <-> Forall (fun v => callable v = true) vs)
  /\ (Forall (fun v => callable v = true) vs ->
      fold_m CompilationProcess.add vs c w
      = (Return {| CompilationProcess.elements := CompilationProcess.elements c ++ vs |}, w))
  /\ (~ Forall (fun v => callable v = true) vs ->
      fold_m CompilationProcess.add vs c w = (Raise TypeError, w)).
Proof.
  assert (Hno : ~ Forall (fun v => callable v = true) vs ->
                fold_m CompilationProcess.add vs c w = (Raise TypeError, w)).
  { intros Hn. apply fold_add_rejects.
    apply not_Forall_Exists in Hn; [|apply _].
    eapply Exists_impl; [exact Hn|]. intros v Hv. simpl in Hv. now destruct (callable v). }
  split; [split|split].
  - intros [c' Hc'].
    destruct (decide (Forall (fun v => callable v = true) vs)) as [Hall|Hn]; [exact Hall|].
    rewrite (Hno Hn) in Hc'. discriminate Hc'.
  - intros Hall. eexists. apply (fold_add_callable _ _ _ Hall).
  - apply fold_add_callable.
  - exact Hno.
Qed.

Lemma add_all_succeeds_iff_callable_witness :
  fold_m CompilationProcess.add Scenario.three_steps CompilationProcess.__init__ Scenario.world0
  = (Return {| CompilationProcess.elements := Scenario.three_steps |}, Scenario.world0)
  /\ fold_m CompilationProcess.add [FunctionObj nullfn; NotCallable; FunctionObj nullfn]
       CompilationProcess.__init__ Scenario.world0
     = (Raise TypeError, Scenario.world0).
Proof.
  split.
  - apply (proj1 (proj2 (add_all_succeeds_iff_callable Scenario.three_steps
                           CompilationProcess.__init__ Scenario.world0))).
    repeat constructor.
  - apply (proj2 (proj2 (add_all_succeeds_iff_callable
                           [FunctionObj nullfn; NotCallable; FunctionObj nullfn]
                           CompilationProcess.__init__ Scenario.world0))).
    intros H. inversion H as [|? ? _ H']; subst. inversion H' as [|? ? Hc _]; subst.
    discriminate Hc.
Defined.

(** ** One compilation unit, continued *)

Lemma deal_timeout_returns (u : CompilationUnit.t) (p : process) (w : world) :
  is_logger (CompilationUnit.log u) = true ->
  fst (CompilationUnit._deal_timeout u p w)
  = match p_drain p (truthy (p_poll p)) with
    | Some r => Return r
    | None => Blocked
    end.
Proof.
  intros Hlog. unfold CompilationUnit._deal_timeout.
  destruct (CompilationUnit.log u); try discriminate Hlog;
    destruct (truthy (p_poll p)) eqn:Hp;
    unfold bind, communicate, call_log, terminate, poll, kill, emit, ret; simpl;
    rewrite Hp; simpl; destruct (p_drain p _); reflexivity.
Qed.

(** X7. A timeout is not a failure by itself: when the process outlives
    the timeout and the wait that follows terminate (and kill, if sent) ends
    with a return code that is ok and not warn, the run returns the output
    collected by that wait. *)
Theorem timeout_is_not_a_failure (u : CompilationUnit.t) (w : world) (p : process)
    (rc : Z) (out err : list byte) :
  is_logger (CompilationUnit.log u) = true ->
  w_popen w (spawned w) (CompilationUnit.command u) (CompilationUnit.cwd u) = Some p ->
  p_timed_out p = true ->
  p_drain p (truthy (p_poll p)) = Some (rc, out, err) ->
  rc ∈ CompilationUnit.ok u -> rc ∉ CompilationUnit.warn u ->
  fst (CompilationUnit._run_process u w) = Return (out, err).
Proof.
  intros Hlog Hpopen Htime Hdrain Hok Hwarn.
  unfold CompilationUnit._run_process.
  rewrite (bind_return _ _ _ _ _ (popen_starts _ _ _ _ Hpopen)).
  unfold bind at 1, try_except, communicate_timeout, bind at 1, emit. rewrite Htime.
  cbn beta iota delta [raise].
  match goal with
  | |- context [CompilationUnit._deal_timeout u p ?w'] =>
      pose proof (deal_timeout_returns u p w' Hlog) as Hd;
      rewrite Hdrain in Hd;
      destruct (CompilationUnit._deal_timeout u p w') as [r w2]
  end.
  simpl in Hd. subst r. cbn beta iota.
  now rewrite (bind_return _ _ _ _ _ (deal_return_code_ok_only u rc out err w2 Hok Hwarn)).
Qed.

Lemma timeout_is_not_a_failure_witness :
  fst (CompilationUnit._run_process Scenario.latex_unit Scenario.world_slow)
  = Return (list_byte_of_string "done", []).
Proof.
  apply (timeout_is_not_a_failure Scenario.latex_unit Scenario.world_slow Scenario.slow 0).
  - reflexivity.
  - reflexivity.
  - reflexivity.
  - reflexivity.
  - vm_compute. apply list_elem_of_here.
  - vm_compute. intros H. inversion H.
Defined.

Lemma run_process_in_time_ok (u : CompilationUnit.t) (w : world) (p : process)
    (rc : Z) (out err : list byte) :
  w_popen w (spawned w) (CompilationUnit.command u) (CompilationUnit.cwd u) = Some p ->
  p_timed_out p = false -> p_exit p = (rc, out, err) ->
  rc ∈ CompilationUnit.ok u -> rc ∉ CompilationUnit.warn u ->
  CompilationUnit._run_process u w
  = (Return (out, err),
     set_trace (w_trace w ++ [spawn_of u; Communicate (Some (CompilationUnit.timeout u))]) w).
Proof.
  intros Hpopen Htime Hexit Hok Hwarn. unfold CompilationUnit._run_process.
  rewrite (bind_return _ _ _ _ _ (popen_starts _ _ _ _ Hpopen)).
  unfold bind at 1, try_except, communicate_timeout, bind at 1, emit.
  rewrite Htime, Hexit. cbn beta iota delta [ret].
  rewrite (bind_return _ _ _ _ _ (deal_return_code_ok_only u rc out err _ Hok Hwarn)).
  unfold ret, spawn_of. rewrite set_trace_set_trace. cbn [w_trace set_trace].
  now rewrite <- app_assoc.
Qed.

(** X8. A unit whose pre-hook returns and whose process ends in time with
    a return code that is ok and not warn runs its post-hook last, in the
    world the process left: when the post-hook returns, the call returns the
    captured stdout and stderr; when it raises, the call raises with it and
    the output is lost. *)
Theorem unit_call_returns_output (u : CompilationUnit.t) (w w0 : world) (p : process)
    (rc : Z) (out err : list byte) :
  CompilationUnit.precall u w = (Return tt, w0) ->
  w_popen w0 (spawned w0) (CompilationUnit.command u) (CompilationUnit.cwd u) = Some p ->
  p_timed_out p = false -> p_exit p = (rc, out, err) ->
  rc ∈ CompilationUnit.ok u -> rc ∉ CompilationUnit.warn u ->
  let w1 := set_trace (w_trace w0 ++ [spawn_of u;
                                      Communicate (Some (CompilationUnit.timeout u))]) w0 in
  (forall w2, CompilationUnit.postcall u w1 = (Return tt, w2) ->
              CompilationUnit.__call__ u w = (Return (out, err), w2))
  /\ (forall e w2, CompilationUnit.postcall u w1 = (Raise e, w2) ->
                   CompilationUnit.__call__ u w = (Raise e, w2)).
Proof.
  intros Hpre Hpopen Htime Hexit Hok Hwarn w1.
  unfold CompilationUnit.__call__.
  rewrite (bind_return _ _ _ _ _ Hpre).
  rewrite (bind_return _ _ _ _ _ (run_process_in_time_ok u w0 p rc out err
                                    Hpopen Htime Hexit Hok Hwarn)).
  fold w1. split.
  - intros w2 Hpost. now rewrite (bind_return _ _ _ _ _ Hpost).
  - intros e w2 Hpost. now rewrite (bind_raise _ _ _ _ _ Hpost).
Qed.

Lemma unit_call_returns_output_witness :
  CompilationUnit.__call__ Scenario.failing_unit Scenario.world_quiet
  = (Return ([], []),
     set_trace [Write "before"; Spawn ["pdflatex"; "/home/u/doc/paper.tex"] (Some "/home/u/doc");
                Communicate (Some 5); Write "after"] Scenario.world_quiet).
Proof.
  apply (proj1 (unit_call_returns_output Scenario.failing_unit Scenario.world_quiet
                  (set_trace [Write "before"] Scenario.world_quiet) Scenario.quiet 0 [] []
                  eq_refl eq_refl eq_refl eq_refl
                  ltac:(vm_compute; apply list_elem_of_here)
                  ltac:(vm_compute; intros H; inversion H))).
  reflexivity.
Defined.

(** X9. Hooks that are left out, or cannot be called, are replaced by a
    function that does nothing: calling such a unit is running its process,
    with the same result and the same world. *)
Theorem unit_call_without_hooks (command filename : string) (args : list string)
    (timeout : Z) (cwd : option string) (logger : object)
    (return_codes : gmap string (list Z)) (w : world) :
  CompilationUnit.__call__
    (CompilationUnit.__init__ command filename args timeout cwd None None logger return_codes) w
  = CompilationUnit._run_process
      (CompilationUnit.__init__ command filename args timeout cwd None None logger return_codes) w.
Proof.
  unfold CompilationUnit.__call__. cbn [CompilationUnit.precall CompilationUnit.postcall
                                         CompilationUnit.__init__].
  unfold nullfn, bind, ret.
  destruct (CompilationUnit._run_process _ w) as [[r|e|] w1]; reflexivity.
Qed.

(** X10. A key missing from the [return_codes] dictionary stands for the
    empty list, not for the default: a unit built from a dictionary without
    an ["ok"] entry fails on every return code that its ["warn"] entry does
    not list, the return code 0 included. *)
Theorem unit_without_ok_entry_fails (command filename : string) (args : list string)
    (timeout : Z) (cwd : option string) (precall postcall : option (M unit)) (logger : object)
    (return_codes : gmap string (list Z)) (rc : Z) (out err : list byte) (w : world) :
  return_codes !! "ok" = None ->
  rc ∉ default [] (return_codes !! "warn") ->
  let u := CompilationUnit.__init__ command filename args timeout cwd precall postcall
             logger return_codes in
  CompilationUnit._deal_return_code u rc out err w
  = (Raise (RuntimeError (message_text u rc out err)), w).
Proof.
  intros Hok Hwarn u. apply deal_return_code_unlisted.
  - unfold u. cbn [CompilationUnit.ok CompilationUnit.__init__]. rewrite Hok. simpl.
    intros H. inversion H.
  - exact Hwarn.
Qed.

Lemma unit_without_ok_entry_fails_witness :
  CompilationUnit._deal_return_code
    (CompilationUnit.__init__ "bibtex" "paper.aux" [] 5 None None None NullLoggerObj
       (<["warn" := [2]]> ∅)) 0 [] [] Scenario.world0
  = (Raise (RuntimeError "Process 'bibtex paper.aux' exited with status '0', stdout:'b''', stderr: 'b'''"),
     Scenario.world0).
Proof.
  apply (unit_without_ok_entry_fails "bibtex" "paper.aux" [] 5 None None None NullLoggerObj
           (<["warn" := [2]]> ∅) 0 [] [] Scenario.world0).
  - reflexivity.
  - vm_compute. intros H. inversion H as [|? ? ? H']; subst. inversion H'.
Defined.

(** ** The logger *)

Lemma format_length (n : nat) (s s' : string) :
  (String.length s <= n)%nat -> Py.format s [] = Some s' ->
  (String.length s' <= String.length s)%nat
  /\ (brace_free s = false -> (String.length s' < String.length s)%nat).
Proof.
  revert s s'. induction n as [|n IH]; intros s s' Hn.
  - destruct s; [|simpl in Hn; lia]. simpl. intros [= <-]. simpl. split; [lia | discriminate].
  - destruct s as [|c t]; [simpl; intros [= <-]; simpl; split; [lia | discriminate]|].
    simpl in Hn. unfold brace_free. simpl.
    destruct (Ascii.eqb c "{") eqn:Hc1.
    + destruct t as [|d r]; [discriminate|].
      destruct (Ascii.eqb d "{"); [|destruct (Ascii.eqb d "}"); discriminate].
      destruct (Py.format r []) as [r'|] eqn:Hr; [|discriminate].
      intros [= <-]. simpl in Hn. destruct (IH r r' ltac:(lia) Hr) as [Hle _].
      simpl. split; [lia | intros _; lia].
    + destruct (Ascii.eqb c "}") eqn:Hc2.
      * destruct t as [|d r]; [discriminate|].
        destruct (Ascii.eqb d "}"); [|discriminate].
        destruct (Py.format r []) as [r'|] eqn:Hr; [|discriminate].
        intros [= <-]. simpl in Hn. destruct (IH r r' ltac:(lia) Hr) as [Hle _].
        simpl. split; [lia | intros _; lia].
      * destruct (Py.format t []) as [t'|] eqn:Ht; [|discriminate].
        intros [= <-]. destruct (IH t t' ltac:(lia) Ht) as [Hle Hlt].
        simpl. split; [lia|]. intros Hb. apply Hlt in Hb. lia.
Qed.

Lemma brace_free_app (a b : string) :
  brace_free (a +:+ b) = brace_free a && brace_free b.
Proof.
  unfold brace_free. induction a as [|c a IH]; [reflexivity|].
  rewrite append_cons. simpl. rewrite IH. now rewrite andb_assoc.
Qed.

Lemma format_verbatim_iff (s : string) : Py.format s [] = Some s <-> brace_free s = true.
Proof.
  split; [|apply format_brace_free].
  intros H. destruct (brace_free s) eqn:Hb; [reflexivity|].
  destruct (format_length (String.length s) s s (le_n _) H) as [_ Hlt].
  specialize (Hlt Hb). lia.
Qed.

(** X11. [Logger] called with a text and no argument writes that text as
    one line exactly when the text holds no brace; on any other text it
    raises or writes something else. *)
Theorem logger_writes_verbatim_iff_brace_free (text : string) (w : world) :
  Logger.__call__ text [] w
  = (Return tt, set_trace (w_trace w ++ [Write (text +:+ String Py.newline EmptyString)]) w)
  <-> brace_free text = true.
Proof.
  assert (Hnl : brace_free (text +:+ String Py.newline EmptyString) = brace_free text)
    by (rewrite brace_free_app; apply andb_true_r).
  rewrite <- Hnl, <- format_verbatim_iff.
  unfold Logger.__call__, fmt, bind, ret, raise, emit.
  destruct (Py.format (text +:+ String Py.newline EmptyString) []) as [s|]; split.
  - intros H. injection H as H. apply app_inv_head in H. now injection H as ->.
  - now intros [= ->].
  - discriminate.
  - discriminate.
Qed.

(** ** The settings file *)


















(** ** Building the project, continued *)

(** X14. A project that [__init__] returns is built without touching the
    world.  With a [builddir] option its build directory is the absolute
    path of that option and its extra arguments are the two flags that name
    this very directory; without one its build directory is the directory of
    the document, it has no extra argument, and its symbolic-link step does
    nothing. *)
Theorem init_build_directory (opts : texoptions) (w w' : world) (p : Project.t) :
  Project.__init__ opts w = (Return p, w') ->
  w' = w
  /\ match opt_builddir opts with
     | Some b =>
         Project.builddir p = Py.abspath (w_cwd w) b
         /\ Project.texargs p = ["-aux-directory=" +:+ Project.builddir p;
                                 "-output-directory=" +:+ Project.builddir p]
     | None =>
         Project.builddir p = Project.path p
         /\ Project.texargs p = []
         /\ forall w2, Project.create_bibfile_symlinks p w2 = (Return tt, w2)
     end.
Proof.
  unfold Project.__init__. intros H.
  destruct (instantiate_pure (opt_latex opts) w) as [[o Ho]|[e He]];
    [rewrite (bind_return _ _ _ _ _ Ho) in H | now rewrite (bind_raise _ _ _ _ _ He) in H].
  destruct (opt_maintex opts) as [name|]; [|discriminate H].
  rewrite (bind_return _ _ _ _ _ (abspath_returns name w)) in H.
  destruct (opt_builddir opts) as [b|] eqn:Hb.
  - rewrite (bind_return _ _ _ _ _ (abspath_returns b w)) in H.
    destruct o as [a| | |]; try discriminate H.
    unfold bind at 1 in H. cbn beta iota delta [ret] in H.
    destruct a. unfold adapter_arguments, PdfLatexCompiler.arguments in H. rewrite Hb in H.
    unfold PdfLatexCompiler._alternate_builddir_options, os_path_abspath, fmt in H.
    cbn in H. unfold bind, get, ret in H. cbn in H.
    destruct (instantiate_pure (opt_logger opts) w) as [[o' Ho']|[e He]]; rewrite ?Ho', ?He in H;
      [|discriminate H].
    injection H as <- <-. split; [reflexivity|]. split; [reflexivity|].
    cbn [Project.texargs Project.builddir]. rewrite append_nil_r. reflexivity.
  - unfold bind at 1 in H. cbn beta iota delta [ret] in H.
    destruct o as [a| | |]; try discriminate H.
    unfold bind at 1 in H. cbn beta iota delta [ret] in H.
    destruct a. unfold adapter_arguments, PdfLatexCompiler.arguments in H. rewrite Hb in H.
    unfold bind at 1 in H. cbn beta iota delta [ret] in H.
    destruct (instantiate_pure (opt_logger opts) w) as [[o' Ho']|[e He]];
      [rewrite (bind_return _ _ _ _ _ Ho') in H | now rewrite (bind_raise _ _ _ _ _ He) in H].
    injection H as <- <-. split; [reflexivity|]. split; [reflexivity|]. split; [reflexivity|].
    intros w2. unfold Project.create_bibfile_symlinks, Project.path. cbn [Project.builddir Project.filepath].
    now rewrite String.eqb_refl, andb_false_r.
Qed.

Lemma init_build_directory_witness :
  Project.builddir Scenario.paper = "/home/u/doc/texbuild"
  /\ Project.texargs Scenario.paper
     = ["-aux-directory=" +:+ Project.builddir Scenario.paper;
        "-output-directory=" +:+ Project.builddir Scenario.paper].
Proof.
  exact (proj2 (init_build_directory (Scenario.options "paper.tex") Scenario.world0
                  Scenario.world0 Scenario.paper eq_refl)).
Defined.

Example init_paper :
  Project.__init__ (Scenario.options "paper.tex") Scenario.world0
  = (Return Scenario.paper, Scenario.world0).
Proof. reflexivity. Qed.

(** X15. A project keeps the file name it was given: when the main
    document is named without a directory part, the file name of the project
    is that name in any working directory, and the auxiliary file name is
    derived from it. *)
Theorem init_keeps_file_name (opts : texoptions) (name : string) (w w' : world) (p : Project.t) :
  opt_maintex opts = Some name ->
  Py.rfind1 Py.slash name = O -> name <> EmptyString -> name <> "." -> name <> ".." ->
  Project.__init__ opts w = (Return p, w') ->
  Project.main_texfile p = name
  /\ Project.reference_auxiliary_filename p = Py.drop_last 3 name +:+ "aux".
Proof.
  intros Hmain Hslash H0 H1 H2 Hinit.
  destruct (init_filepath _ _ _ _ Hinit) as (name' & Hname & Hpath & _).
  rewrite Hmain in Hname. injection Hname as <-.
  assert (Hfile : Project.main_texfile p = name).
  { unfold Project.main_texfile. rewrite Hpath. now apply basename_abspath. }
  split; [exact Hfile|]. unfold Project.reference_auxiliary_filename. now rewrite Hfile.
Qed.

Lemma init_keeps_file_name_witness :
  Project.main_texfile Scenario.thesis = "thesis.ltx"
  /\ Project.reference_auxiliary_filename Scenario.thesis = "thesis.aux".
Proof.
  exact (init_keeps_file_name (Scenario.options "thesis.ltx") "thesis.ltx"
           Scenario.world0 Scenario.world0 Scenario.thesis
           eq_refl eq_refl ltac:(discriminate) ltac:(discriminate) ltac:(discriminate) eq_refl).
Defined.

(** ** The auxiliary file name, once more *)

Lemma take_length (n : nat) (s : string) :
  String.length (Py.take n s) = Nat.min n (String.length s).
Proof.
  revert s. induction n as [|n IH]; intros [|c s]; simpl; try reflexivity.
  now rewrite IH.
Qed.

(** X16. The auxiliary file name always ends in [aux] and is as long as
    the file name of the main document, or three characters long when that
    name is shorter; a file name of at most three characters gives [aux]
    alone. *)
Theorem aux_filename_length (p : Project.t) :
  String.length (Project.reference_auxiliary_filename p)
  = Nat.max (String.length (Project.main_texfile p)) 3
  /\ (exists stem, Project.reference_auxiliary_filename p = stem +:+ "aux"
                   /\ stem +:+ Py.drop (String.length stem) (Project.main_texfile p)
                      = Project.main_texfile p)
  /\ ((String.length (Project.main_texfile p) <= 3)%nat ->
      Project.reference_auxiliary_filename p = "aux").
Proof.
  unfold Project.reference_auxiliary_filename, Py.drop_last.
  set (name := Project.main_texfile p).
  split; [|split].
  - rewrite length_app, take_length. simpl. lia.
  - exists (Py.take (String.length name - 3) name). split; [reflexivity|].
    rewrite take_length.
    replace (Nat.min (String.length name - 3) (String.length name))
      with (String.length name - 3)%nat by lia.
    apply take_drop.
  - intros Hlen. replace (String.length name - 3)%nat with 0%nat by lia. reflexivity.
Qed.

Lemma aux_filename_length_witness :
  Project.reference_auxiliary_filename Scenario.short_name = "aux".
Proof.
  apply (proj2 (proj2 (aux_filename_length Scenario.short_name))).
  vm_compute. lia.
Defined.

(** ** A logger option that names another class *)

Lemma call_log_non_logger (l : object) (template : string) (args : list string) (w : world) :
  is_logger l = false -> call_log l template args w = (Raise TypeError, w).
Proof. destruct l; try discriminate; reflexivity. Qed.

Lemma create_build_dir_non_logger (p : Project.t) (w : world) :
  is_logger (Project.log p) = false ->
  Project.create_build_dir p w = (Return tt, w)
  \/ Project.create_build_dir p w = (Raise TypeError, w).
Proof.
  intros Hlog. unfold Project.create_build_dir, os_path_exists, get, bind. cbn beta iota.
  destruct (resolves 40 (w_fs w) (Project.builddir p)); cbn beta iota delta [negb].
  - now left.
  - right. now rewrite call_log_non_logger.
Qed.

Lemma main_unit_non_logger (p : Project.t) (w : world) :
  is_logger (Project.log p) = false ->
  call (UnitObj (Project.main_file_compilation p)) w = (Raise TypeError, w).
Proof.
  intros Hlog. simpl. apply bind_raise. unfold CompilationUnit.__call__.
  apply bind_raise. cbn [CompilationUnit.precall Project.main_file_compilation
                          CompilationUnit.__init__].
  unfold Project.main_file_log. now apply call_log_non_logger.
Qed.

(** X17. When the logger of a project is an object that cannot be called
    (the [logger] option named the compiler class or the pipeline class),
    every build raises [TypeError] before it starts a process or creates
    anything: the world is left as it was. *)
Theorem compile_with_non_logger (p : Project.t) (w : world) :
  is_logger (Project.log p) = false ->
  Project.compile p w = (Raise TypeError, w).
Proof.
  intros Hlog. rewrite project_compile_runs_plan. unfold plan_elements.
  destruct (String.eqb (Project.builddir p) EmptyString); simpl app.
  - simpl for_each. apply bind_raise. now apply main_unit_non_logger.
  - simpl for_each.
    destruct (create_build_dir_non_logger p w Hlog) as [H|H].
    + change (call (FunctionObj (Project.create_build_dir p))) with (Project.create_build_dir p).
      rewrite (bind_return _ _ _ _ _ H). apply bind_raise. now apply main_unit_non_logger.
    + apply bind_raise. exact H.
Qed.

Lemma compile_with_non_logger_witness :
  Project.compile Scenario.paper_without_logger Scenario.world_bib
  = (Raise TypeError, Scenario.world_bib).
Proof.
  apply (compile_with_non_logger Scenario.paper_without_logger Scenario.world_bib).
  reflexivity.
Defined.

Example init_with_pipeline_class_as_logger :
  Project.__init__ (Scenario.options_with_logger "CompilationProcess") Scenario.world_bib
  = (Return Scenario.paper_without_logger, Scenario.world_bib).
Proof. reflexivity. Qed.
